(** * DocuChat AI front end: a shallow embedding of the React client

    The client is a set of React components (MessageBubble, ChartVisualizer,
    ChatInterface, ConversationSidebar, DocumentList), the axios wrapper
    [services/api.ts] and the [App] component that owns the state. Each
    component is embedded as the function from its props and state to what
    it renders; each handler as the program of effects it performs.

    Conventions.
    - A JavaScript string is a Stdlib [string]; its characters are read as
      the code units U+0000..U+00FF.
    - A JavaScript number is a binary64 [float] of the kernel.
    - A value typed [any] is a [JSValue].
    - Locale formatting ([toLocaleTimeString], [toLocaleDateString]) and
      the drawing done inside MUI and recharts are left to the host: a view
      keeps the data handed to them. Styling and the colour theme are left
      out. *)

From Stdlib Require Import Ascii String Floats ZArith.
From stdpp Require Import gmap strings list pretty.

#[local] Set Warnings "-inexact-float,-register-all".
#[local] Open Scope string_scope.

(* ===================================================================== *)
(** * Part I: definitions                                                 *)
(* ===================================================================== *)

(** ** JavaScript strings *)

Module JSString.

(** WhiteSpace and LineTerminator code points below U+0100, the characters
    [String.prototype.trim] strips: TAB, LF, VT, FF, CR, SP, NBSP. *)
Definition isWhiteSpace (c : ascii) : bool :=
  let n := nat_of_ascii c in
  (Nat.leb 9 n && Nat.leb n 13) || Nat.eqb n 32 || Nat.eqb n 160.

Fixpoint trimStart (s : string) : string :=
  match s with
  | EmptyString => EmptyString
  | String c s' => if isWhiteSpace c then trimStart s' else s
  end.

Fixpoint trimEnd (s : string) : string :=
  match s with
  | EmptyString => EmptyString
  | String c s' =>
      match trimEnd s' with
      | EmptyString => if isWhiteSpace c then EmptyString else String c EmptyString
      | t => String c t
      end
  end.

(** [s.trim()] *)
Definition trim (s : string) : string := trimEnd (trimStart s).

(** Lower-case mapping of one code unit: A-Z, and the Latin-1 capitals
    U+00C0..U+00DE except the multiplication sign U+00D7. *)
Definition lowerChar (c : ascii) : ascii :=
  let n := nat_of_ascii c in
  if (Nat.leb 65 n && Nat.leb n 90)
     || (Nat.leb 192 n && Nat.leb n 222 && negb (Nat.eqb n 215))
  then ascii_of_nat (n + 32)
  else c.

(** [s.toLowerCase()] *)
Fixpoint toLowerCase (s : string) : string :=
  match s with
  | EmptyString => EmptyString
  | String c s' => String (lowerChar c) (toLowerCase s')
  end.

(** [s.startsWith(q)] *)
Fixpoint startsWith (s q : string) {struct q} : bool :=
  match q with
  | EmptyString => true
  | String c q' =>
      match s with
      | EmptyString => false
      | String d s' => Ascii.eqb c d && startsWith s' q'
      end
  end.

(** [s.includes(q)]: [q] occurs in [s] at some position. *)
Fixpoint includes (s q : string) : bool :=
  if startsWith s q then true
  else match s with
       | EmptyString => false
       | String _ s' => includes s' q
       end.

(** [s.substring(0, n)] *)
Definition substring0 (n : nat) (s : string) : string := String.substring 0 n s.

(** A string is truthy when it is not empty. *)
Definition nonEmpty (s : string) : bool :=
  match s with EmptyString => false | _ => true end.

(** Specification vocabulary: a string of white space only, and a string
    that starts, or ends, with white space. *)
Fixpoint allWhiteSpace (s : string) : bool :=
  match s with
  | EmptyString => true
  | String c s' => isWhiteSpace c && allWhiteSpace s'
  end.

Definition startsWithWhiteSpace (s : string) : bool :=
  match s with
  | EmptyString => false
  | String c _ => isWhiteSpace c
  end.

Fixpoint endsWithWhiteSpace (s : string) : bool :=
  match s with
  | EmptyString => false
  | String c EmptyString => isWhiteSpace c
  | String _ s' => endsWithWhiteSpace s'
  end.

(** [q] occurs in [s]. *)
Definition occursIn (q s : string) : Prop :=
  exists pre post : string, s = pre ++ q ++ post.

(** [title] contains [query] when case is ignored. *)
Definition containsIgnoringCase (title query : string) : Prop :=
  occursIn (toLowerCase query) (toLowerCase title).

End JSString.

(** ** JavaScript values *)

Module JS.

(** What [JSON.parse] can deliver, and [undefined]. An object keeps its
    own properties, each name once, in the order [Object.keys] enumerates
    them. *)
Inductive JSValue : Type :=
| JUndefined
| JNull
| JBool (b : bool)
| JNumber (n : float)
| JString (s : string)
| JArray (xs : list JSValue)
| JObject (props : list (string * JSValue)).

(** Outcome of an evaluation that may throw a [TypeError]. *)
Inductive Result (A : Type) : Type :=
| Ok (a : A)
| TypeError.
Arguments Ok {A} a.
Arguments TypeError {A}.

Definition rbind {A B} (r : Result A) (f : A -> Result B) : Result B :=
  match r with Ok a => f a | TypeError => TypeError end.

(** ToBoolean of a number: [0], [-0] and [NaN] are falsy. *)
Definition numberTruthy (n : float) : bool :=
  negb (PrimFloat.eqb n 0%float || PrimFloat.is_nan n).

(** ToBoolean *)
Definition truthy (v : JSValue) : bool :=
  match v with
  | JUndefined | JNull => false
  | JBool b => b
  | JNumber n => numberTruthy n
  | JString s => JSString.nonEmpty s
  | JArray _ | JObject _ => true
  end.

(** [a || b] *)
Definition jsOr (a b : JSValue) : JSValue := if truthy a then a else b.

(** [a && b] *)
Definition jsAnd (a b : JSValue) : JSValue := if truthy a then b else a.

Fixpoint assoc (k : string) (props : list (string * JSValue)) : JSValue :=
  match props with
  | [] => JUndefined
  | (k', v) :: rest => if String.eqb k k' then v else assoc k rest
  end.

(** [v.k] for a property name [k] that is neither [length] nor an index:
    an own property of an object; primitives, strings and arrays have no
    such data property. Reading a property of [undefined] or [null]
    throws. *)
Definition get (v : JSValue) (k : string) : Result JSValue :=
  match v with
  | JUndefined | JNull => TypeError
  | JBool _ | JNumber _ | JString _ | JArray _ => Ok JUndefined
  | JObject props => Ok (assoc k props)
  end.

(** [v[0]] *)
Definition first (v : JSValue) : Result JSValue :=
  match v with
  | JUndefined | JNull => TypeError
  | JBool _ | JNumber _ => Ok JUndefined
  | JString EmptyString => Ok JUndefined
  | JString (String c _) => Ok (JString (String c EmptyString))
  | JArray [] => Ok JUndefined
  | JArray (x :: _) => Ok x
  | JObject props => Ok (assoc "0" props)
  end.

(** [v === 0] *)
Definition isZero (v : JSValue) : bool :=
  match v with
  | JNumber n => PrimFloat.eqb n 0%float
  | _ => false
  end.

(** [v.length === 0] *)
Definition lengthIsZero (v : JSValue) : Result bool :=
  match v with
  | JUndefined | JNull => TypeError
  | JBool _ | JNumber _ => Ok false
  | JString s => Ok (Nat.eqb (String.length s) 0)
  | JArray xs => Ok (Nat.eqb (length xs) 0)
  | JObject props => Ok (isZero (assoc "length" props))
  end.

(** Index keys ["0"], ["1"], ... of an array or a string of length [n]. *)
Definition indexKeys (n : nat) : list string := map (fun i : nat => pretty i) (seq 0 n).

(** [Object.keys(v)] *)
Definition Object_keys (v : JSValue) : Result (list string) :=
  match v with
  | JUndefined | JNull => TypeError
  | JBool _ | JNumber _ => Ok []
  | JString s => Ok (indexKeys (String.length s))
  | JArray xs => Ok (indexKeys (length xs))
  | JObject props => Ok (map fst props)
  end.

(** [v === s] for a string literal [s] *)
Definition isString (v : JSValue) (s : string) : bool :=
  match v with
  | JString s' => String.eqb s' s
  | _ => false
  end.

(** A JSX child [{v && <element/>}]: the element when [v] is truthy, and
    otherwise the falsy value [v] itself, which React then renders. *)
Inductive Child (A : Type) : Type :=
| Value (v : JSValue)
| Element (a : A).
Arguments Value {A} v.
Arguments Element {A} a.

Definition jsxAnd {A} (v : JSValue) (a : A) : Child A :=
  if truthy v then Element a else Value v.

(** React renders nothing for [undefined], [null], booleans and the empty
    string; a number child, [0] and [NaN] included, becomes a text node. *)
Definition rendersNothing {A} (c : Child A) : bool :=
  match c with
  | Value JUndefined | Value JNull | Value (JBool _) => true
  | Value (JString s) => negb (JSString.nonEmpty s)
  | _ => false
  end.

(** [Math.round(x)] of a finite number, as the integer it denotes; [None]
    for [NaN] and the infinities. The nearest integer, ties towards
    +infinity: [floor (x + 1/2)], computed exactly. *)
Definition Math_round (x : float) : option Z :=
  match Prim2SF x with
  | S754_zero _ => Some 0%Z
  | S754_infinity _ | S754_nan => None
  | S754_finite neg m e =>
      let sm := if neg then Z.neg m else Z.pos m in
      if (0 <=? e)%Z then Some (sm * 2 ^ e)%Z
      else let d := (2 ^ (- e))%Z in
           Some ((2 * sm + d) / (2 * d))%Z
  end.

(** The text of [Math.round(x)] in a template or as a JSX child: the
    decimal digits of the integer. This is what JavaScript prints below
    1e21; from there on it prints an exponent form, which is not
    described here. *)
Definition roundedText (x : float) : string :=
  match Math_round x with
  | Some z => pretty z
  | None =>
      if PrimFloat.is_nan x then "NaN"
      else if PrimFloat.ltb x 0%float then "-Infinity" else "Infinity"
  end.

End JS.

(** ** components/DocumentList.tsx *)

Module DocumentList.

Inductive Icon : Type :=
| CheckCircleIcon
| HourglassEmptyIcon
| ErrorIcon.

Definition getStatusIcon (status : string) : option Icon :=
  if String.eqb status "ready" then Some CheckCircleIcon
  else if String.eqb status "processing" then Some HourglassEmptyIcon
  else if String.eqb status "failed" then Some ErrorIcon
  else None.

Definition getStatusColor (status : string) : string :=
  if String.eqb status "ready" then "success"
  else if String.eqb status "processing" then "warning"
  else if String.eqb status "failed" then "error"
  else "default".

(** The status [Chip] of one list row. *)
Record StatusChip : Type := {
  chip_label : string;
  chip_color : string;
  chip_icon : option Icon;
}.

Definition statusChip (status : string) : StatusChip :=
  {| chip_label := status;
     chip_color := getStatusColor status;
     chip_icon := getStatusIcon status |}.

End DocumentList.

(** ** services/api.ts: the data exchanged with the server *)

Module Source.
Record t : Type := {
  document_id : string;
  filename : string;
  chunk_index : float;
  content : option string;
  relevance_score : option float;
}.
End Source.

Module Message.
(** [role] is typed ['user' | 'assistant'] and compared as a string;
    [sources?], [confidence?] and [chart_id?] may be missing, [chart_data?]
    is [any] ([JUndefined] when missing). *)
Record t : Type := {
  id : string;
  role : string;
  content : string;
  created_at : string;
  sources : option (list Source.t);
  confidence : option float;
  chart_id : option string;
  chart_data : JS.JSValue;
}.
End Message.

Module Document.
Record t : Type := {
  id : string;
  filename : string;
  original_filename : string;
  file_size : float;
  file_type : string;
  status : string;
  created_at : string;
}.
End Document.

Module Conversation.
Record t : Type := {
  id : string;
  title : string;
  created_at : string;
  updated_at : string;
}.
End Conversation.

Module ChatResponse.
Record t : Type := {
  message : Message.t;
  sources : option (list Source.t);
  chart_data : JS.JSValue;
}.
End ChatResponse.

(** ** components/ChartVisualizer.tsx *)

Module ChartVisualizer.
Import JS.

Definition COLORS : list string :=
  ["#0088FE"; "#00C49F"; "#FFBB28"; "#FF8042"; "#8884d8"; "#82ca9d"].

(** [COLORS[index % COLORS.length]] *)
Definition colorAt (index : nat) : string :=
  default "" (COLORS !! (index mod length COLORS)).

(** One [<Line>] or [<Bar>] of a chart. *)
Record Series : Type := {
  dataKey : string;
  color : string;
}.

Definition seriesOf (dataKeys : list string) : list Series :=
  imap (fun index key => {| dataKey := key; color := colorAt index |}) dataKeys.

Inductive Chart : Type :=
| LineChart (data : JSValue) (lines : list Series)
| PieChart (data : JSValue) (pieDataKey : option string) (cells : list string)
| BarChart (data : JSValue) (bars : list Series).

(** The [<Paper>] the component returns. *)
Record Paper : Type := {
  heading : Child JSValue;
  chart : Chart;
}.

(** [chartData.map((entry, index) => <Cell fill=.../>)]: only an array
    has [map]. *)
Definition cellsOf (chartData : JSValue) : Result (list string) :=
  match chartData with
  | JArray xs => Ok (imap (fun index _ => colorAt index) xs)
  | _ => TypeError
  end.

Definition renderChart (type chartData : JSValue) (dataKeys : list string)
  : Result Chart :=
  if isString type "line" then Ok (LineChart chartData (seriesOf dataKeys))
  else if isString type "pie" then
    rbind (cellsOf chartData) (fun cells =>
    Ok (PieChart chartData (head dataKeys) cells))
  else Ok (BarChart chartData (seriesOf dataKeys)).

(** [Object.keys(chartData[0]).filter((key) => key !== 'name')] *)
Definition dataKeysOf (chartData : JSValue) : Result (list string) :=
  rbind (first chartData) (fun row =>
  rbind (Object_keys row) (fun keys =>
  Ok (List.filter (fun key => negb (String.eqb key "name")) keys))).

(** What follows the guard of the component. *)
Definition body (chartData title type : JSValue) : Result (option Paper) :=
  rbind (dataKeysOf chartData) (fun dataKeys =>
  rbind (renderChart type chartData dataKeys) (fun c =>
  Ok (Some {| heading := jsxAnd title title; chart := c |}))).

(** The component: [Ok None] is the [null] it returns. An [undefined]
    [type] takes the default ['bar']. *)
Definition ChartVisualizer (data title type : JSValue) : Result (option Paper) :=
  let type := match type with JUndefined => JString "bar" | _ => type end in
  if negb (truthy data) then Ok None
  else
    rbind (get data "data") (fun chartData =>
    if negb (truthy chartData) then Ok None
    else
      rbind (lengthIsZero chartData) (fun empty =>
      if (empty : bool) then Ok None
      else body chartData title type)).

End ChartVisualizer.

(** ** components/MessageBubble.tsx *)

Module MessageBubble.
Import JS.

Definition getConfidenceColor (confidence : option float) : string :=
  match confidence with
  | None => "default"
  | Some c =>
      if negb (numberTruthy c) then "default"
      else if PrimFloat.leb 0.7%float c then "success"
      else if PrimFloat.leb 0.4%float c then "warning"
      else "error"
  end.

Definition getConfidenceLabel (confidence : option float) : string :=
  match confidence with
  | None => ""
  | Some c =>
      if negb (numberTruthy c) then ""
      else roundedText (PrimFloat.mul c 100%float) ++ "% confident"
  end.

Record ConfidenceChip : Type := {
  confidenceLabel : string;
  confidenceColor : string;
}.

Record SourcesChip : Type := {
  expanded : bool;
  sourcesLabel : string;
}.

(** The row under an assistant bubble. *)
Record MetaRow : Type := {
  time : string;
  confidenceChip : Child ConfidenceChip;
  sourcesChip : Child SourcesChip;
}.

(** One card of the collapsible list of sources. *)
Record SourceCard : Type := {
  cardTitle : string;
  relevance : Child string;
  excerpt : option string;
  ellipsis : string;
}.

Record SourcesPanel : Type := {
  panelOpen : bool;
  cards : list SourceCard;
}.

Record View : Type := {
  isUser : bool;
  content : string;
  chart : Child (option ChartVisualizer.Paper);
  metadata : Child MetaRow;
  userTime : Child string;
  sourcesPanel : Child SourcesPanel;
}.

(** [!isUser && message.sources && message.sources.length > 0] *)
Definition hasSources (message : Message.t) : JSValue :=
  if String.eqb (Message.role message) "user" then JBool false
  else match Message.sources message with
       | None => JUndefined
       | Some l => JBool (Nat.ltb 0 (length l))
       end.

(** [!isUser && message.chart_data] *)
Definition hasChart (message : Message.t) : JSValue :=
  JS.jsAnd (JBool (negb (String.eqb (Message.role message) "user")))
         (Message.chart_data message).

(** [message.confidence !== undefined && message.confidence > 0] *)
Definition showConfidence (message : Message.t) : JSValue :=
  match Message.confidence message with
  | None => JBool false
  | Some c => JBool (PrimFloat.ltb 0%float c)
  end.

Definition sourceCard (idx : nat) (source : Source.t) : SourceCard :=
  {| cardTitle :=
       if JSString.nonEmpty (Source.filename source) then Source.filename source
       else "Source " ++ pretty (idx + 1);
     relevance :=
       match Source.relevance_score source with
       | None => Value JUndefined
       | Some r =>
           jsxAnd (JNumber r) (roundedText (PrimFloat.mul r 100%float) ++ "% relevant")
       end;
     excerpt := JSString.substring0 200 <$> Source.content source;
     ellipsis :=
       match Source.content source with
       | Some c =>
           if JSString.nonEmpty c && Nat.ltb 200 (String.length c) then "..." else ""
       | None => ""
       end |}.

(** The [<Box>] holding the chart: the props handed to [ChartVisualizer]
    and what it returns. *)
Definition chartBox (chart_data : JSValue) : Result (option ChartVisualizer.Paper) :=
  rbind (get chart_data "title") (fun title =>
  rbind (get chart_data "type") (fun type =>
  ChartVisualizer.ChartVisualizer chart_data
    (JS.jsOr title (JString "Data Visualization"))
    (JS.jsOr type (JString "bar")))).

(** The component, for the state [sourcesOpen] of its [useState]: the
    tree the function returns, or the [TypeError] it throws, which
    leaves no bubble at all. Whether React accepts each child of the
    returned tree (it refuses a plain object, such as a chart title that
    is one) is not part of the function and is not described here. *)
Definition MessageBubble (message : Message.t) (sourcesOpen : bool) : Result View :=
  let isUser := String.eqb (Message.role message) "user" in
  let sourceList := default [] (Message.sources message) in
  let n := length sourceList in
  rbind
    (if truthy (hasChart message)
     then rbind (chartBox (Message.chart_data message)) (fun box => Ok (Element box))
     else Ok (Value (hasChart message)))
    (fun chartChild =>
  Ok {| isUser := isUser;
        content := Message.content message;
        chart := chartChild;
        metadata :=
          jsxAnd (JBool (negb isUser))
            {| time := Message.created_at message;
               confidenceChip :=
                 jsxAnd (showConfidence message)
                   {| confidenceLabel := getConfidenceLabel (Message.confidence message);
                      confidenceColor := getConfidenceColor (Message.confidence message) |};
               sourcesChip :=
                 jsxAnd (hasSources message)
                   {| expanded := sourcesOpen;
                      sourcesLabel :=
                        pretty n ++ " source" ++ (if Nat.ltb 1 n then "s" else "") |} |};
        userTime := jsxAnd (JBool isUser) (Message.created_at message);
        sourcesPanel :=
          jsxAnd (hasSources message)
            {| panelOpen := sourcesOpen;
               cards := imap sourceCard sourceList |} |}).

End MessageBubble.

(** ** components/ChatInterface.tsx *)

Module ChatInterface.

(** What a handler of the component does: call the [onSendMessage] prop,
    set the [input] state, cancel the key event. *)
Inductive Action : Type :=
| onSendMessage (message : string)
| setInput (value : string)
| preventDefault.

Definition handleSend (input : string) (loading : bool) : list Action :=
  if JSString.nonEmpty (JSString.trim input) && negb loading
  then [onSendMessage (JSString.trim input); setInput ""]
  else [].

Definition handleKeyDown (key : string) (shiftKey : bool)
                         (input : string) (loading : bool) : list Action :=
  if String.eqb key "Enter" && negb shiftKey
  then preventDefault :: handleSend input loading
  else [].

(** [disabled] of the send button; its [onClick] is [handleSend]. *)
Definition sendDisabled (input : string) (loading : bool) : bool :=
  negb (JSString.nonEmpty (JSString.trim input)) || loading.

(** [disabled] of the text field. *)
Definition inputDisabled (loading : bool) : bool := loading.

(** The [input] state after the actions of a handler. *)
Definition inputAfter (input : string) (actions : list Action) : string :=
  foldl (fun cur a => match a with setInput v => v | _ => cur end) input actions.

(** The messages handed to [onSendMessage] by the actions of a handler. *)
Definition sent (actions : list Action) : list string :=
  omap (fun a => match a with onSendMessage m => Some m | _ => None end) actions.

(** A click reaches [handleSend] only on an enabled button. *)
Definition clickSend (input : string) (loading : bool) : list Action :=
  if sendDisabled input loading then [] else handleSend input loading.

End ChatInterface.

(** ** components/ConversationSidebar.tsx *)

Module ConversationSidebar.

(** The value the effect on [[searchQuery, conversations]] gives to the
    [filteredConversations] state. *)
Definition filteredConversations (searchQuery : string)
    (conversations : list Conversation.t) : list Conversation.t :=
  if JSString.nonEmpty searchQuery
  then List.filter
         (fun conv =>
            JSString.includes (JSString.toLowerCase (Conversation.title conv))
                              (JSString.toLowerCase searchQuery))
         conversations
  else conversations.

Inductive ListBody : Type :=
| EmptyNotice (text : string)
| Items (items : list Conversation.t).

Definition listBody (searchQuery : string) (filtered : list Conversation.t) : ListBody :=
  match filtered with
  | [] => EmptyNotice (if JSString.nonEmpty searchQuery then "No results"
                       else "No conversations yet")
  | _ => Items filtered
  end.

End ConversationSidebar.

(** ** services/api.ts: the requests *)

Module Api.

(** The part of a [File] the client reads and sends. *)
Record File : Type := {
  name : string;
  body : string;
}.

(** What axios rejects with, as far as the handlers read it:
    [error.response?.data?.detail]. A request that got no response has
    no [response]. The detail is taken as the handlers store it, where a
    [string] is declared (the content of a message, the text of the
    snackbar, the error of the delete dialog): a text, or nothing. A
    detail of another type is not described here. *)
Record ErrorData : Type := { detail : option string }.
Record ErrorResponse : Type := { data : option ErrorData }.
Record AxiosError : Type := { response : option ErrorResponse }.

(** One constructor per exported function, with the values it puts into
    the form, the JSON body, the path or the query string. *)
Inductive Request : Type :=
| PostUpload (file : File) (session_id : string)
| PostChat (message conversation_id session_id : string)
| GetConversationMessages (conversationId : string)
| GetDocuments (sessionId : string)
| PostConversations (session_id : string)
| GetSessionConversations (sessionId : string)
| DeleteConversation (conversationId : string)
| DeleteDocument (documentId : string)
| DeleteSession (sessionId : string).

(** The type of [response.data]. *)
Definition Reply (r : Request) : Type :=
  match r with
  | PostUpload _ _ => Document.t
  | PostChat _ _ _ => ChatResponse.t
  | GetConversationMessages _ => list Message.t
  | GetDocuments _ => list Document.t
  | PostConversations _ => Conversation.t
  | GetSessionConversations _ => list Conversation.t
  | DeleteConversation _ | DeleteDocument _ | DeleteSession _ => unit
  end.

(** The session a request is made for, when it is session-scoped. *)
Definition sessionOf (r : Request) : option string :=
  match r with
  | PostUpload _ s | PostChat _ _ s | GetDocuments s
  | PostConversations s | GetSessionConversations s | DeleteSession s => Some s
  | GetConversationMessages _ | DeleteConversation _ | DeleteDocument _ => None
  end.

End Api.

(** ** App.tsx: state, effects and programs *)

Module App.
Import Api.

Record Snackbar : Type := {
  open : bool;
  message : string;
  severity : string;
}.

(** The [useState] cells of [App]. [sessionId] has no setter. *)
Record State : Type := {
  sessionId : string;
  conversationId : option string;
  messages : list Message.t;
  documents : list Document.t;
  conversations : list Conversation.t;
  uploading : bool;
  loading : bool;
  sidebarOpen : bool;
  snackbar : Snackbar;
}.

(** The setters. [setMessages] takes an updater, applied to the list
    current when React processes it; [setMessages(msgs)] is the constant
    updater. *)
Inductive Update : Type :=
| setConversationId (v : option string)
| setMessages (f : list Message.t -> list Message.t)
| setDocuments (v : list Document.t)
| setConversations (v : list Conversation.t)
| setUploading (v : bool)
| setLoading (v : bool)
| setSidebarOpen (v : bool)
| setSnackbar (v : Snackbar).

Definition applyUpdate (u : Update) (st : State) : State :=
  match u with
  | setConversationId v =>
      {| sessionId := sessionId st; conversationId := v; messages := messages st;
         documents := documents st; conversations := conversations st;
         uploading := uploading st; loading := loading st;
         sidebarOpen := sidebarOpen st; snackbar := snackbar st |}
  | setMessages f =>
      {| sessionId := sessionId st; conversationId := conversationId st;
         messages := f (messages st);
         documents := documents st; conversations := conversations st;
         uploading := uploading st; loading := loading st;
         sidebarOpen := sidebarOpen st; snackbar := snackbar st |}
  | setDocuments v =>
      {| sessionId := sessionId st; conversationId := conversationId st;
         messages := messages st;
         documents := v; conversations := conversations st;
         uploading := uploading st; loading := loading st;
         sidebarOpen := sidebarOpen st; snackbar := snackbar st |}
  | setConversations v =>
      {| sessionId := sessionId st; conversationId := conversationId st;
         messages := messages st;
         documents := documents st; conversations := v;
         uploading := uploading st; loading := loading st;
         sidebarOpen := sidebarOpen st; snackbar := snackbar st |}
  | setUploading v =>
      {| sessionId := sessionId st; conversationId := conversationId st;
         messages := messages st;
         documents := documents st; conversations := conversations st;
         uploading := v; loading := loading st;
         sidebarOpen := sidebarOpen st; snackbar := snackbar st |}
  | setLoading v =>
      {| sessionId := sessionId st; conversationId := conversationId st;
         messages := messages st;
         documents := documents st; conversations := conversations st;
         uploading := uploading st; loading := v;
         sidebarOpen := sidebarOpen st; snackbar := snackbar st |}
  | setSidebarOpen v =>
      {| sessionId := sessionId st; conversationId := conversationId st;
         messages := messages st;
         documents := documents st; conversations := conversations st;
         uploading := uploading st; loading := loading st;
         sidebarOpen := v; snackbar := snackbar st |}
  | setSnackbar v =>
      {| sessionId := sessionId st; conversationId := conversationId st;
         messages := messages st;
         documents := documents st; conversations := conversations st;
         uploading := uploading st; loading := loading st;
         sidebarOpen := sidebarOpen st; snackbar := v |}
  end.

(** Work that is set going and left to run later: the [setTimeout]
    callback, the asynchronous calls of the mount effect, of the menu
    button and of [handleDocumentDeleted], and the two handlers a click
    in the sidebar sets going. A program records that it started one
    ([Spawn]); what the task does is [taskProg]. *)
Inductive Task : Type :=
| TaskInit
| TaskLoadDocuments
| TaskLoadConversations
| TaskSelectConversation (convId : string)
| TaskNewConversation.

(** The effects of the handlers, indexed by what each returns. An
    awaited request returns the rejection or [response.data]. *)
Inductive Eff : Type -> Type :=
| Http (r : Request) : Eff (AxiosError + Reply r)
| uuidv4 : Eff string
| toISOString : Eff string
| getItem (key : string) : Eff (option string)
| setItem (key value : string) : Eff unit
| consoleError (label : string) : Eff unit
| readInitialized : Eff bool
| writeInitialized (v : bool) : Eff unit
| SetState (u : Update) : Eff unit
| Spawn (t : Task) : Eff unit.

(** A handler: a tree of effects that returns, or throws what a rejected
    request carried. *)
Inductive Prog (A : Type) : Type :=
| Ret (a : A)
| Throw (e : AxiosError)
| Vis {X : Type} (e : Eff X) (k : X -> Prog A).
Arguments Ret {A} a.
Arguments Throw {A} e.
Arguments Vis {A X} e k.

Fixpoint bind {A B} (p : Prog A) (f : A -> Prog B) : Prog B :=
  match p with
  | Ret a => f a
  | Throw e => Throw e
  | Vis e k => Vis e (fun x => bind (k x) f)
  end.

#[export] Instance Prog_ret : MRet Prog := fun A a => Ret a.
#[export] Instance Prog_bind : MBind Prog := fun A B f p => bind p f.

Definition perform {X} (e : Eff X) : Prog X := Vis e Ret.

(** [try { p } catch (error) { h error }] *)
Fixpoint try_catch {A} (p : Prog A) (h : AxiosError -> Prog A) : Prog A :=
  match p with
  | Ret a => Ret a
  | Throw e => h e
  | Vis e k => Vis e (fun x => try_catch (k x) h)
  end.

(** [try { p } finally { q }] *)
Fixpoint finally {A} (p : Prog A) (q : Prog unit) : Prog A :=
  match p with
  | Ret a => bind q (fun _ => Ret a)
  | Throw e => bind q (fun _ => Throw e)
  | Vis e k => Vis e (fun x => finally (k x) q)
  end.

(** *** The exported functions of services/api.ts: [await] of the
    request; a rejection is thrown. *)

Definition request (r : Request) : Prog (Reply r) :=
  Vis (Http r) (fun x => match x with inl e => Throw e | inr d => Ret d end).

Definition uploadDocument (file : File) (sessionId : string) : Prog Document.t :=
  request (PostUpload file sessionId).

Definition sendMessage (message conversationId sessionId : string)
  : Prog ChatResponse.t :=
  request (PostChat message conversationId sessionId).

Definition getConversationHistory (conversationId : string) : Prog (list Message.t) :=
  request (GetConversationMessages conversationId).

Definition getDocuments (sessionId : string) : Prog (list Document.t) :=
  request (GetDocuments sessionId).

Definition createConversation (sessionId : string) : Prog Conversation.t :=
  request (PostConversations sessionId).

Definition getConversations (sessionId : string) : Prog (list Conversation.t) :=
  request (GetSessionConversations sessionId).

Definition deleteConversation (conversationId : string) : Prog unit :=
  request (DeleteConversation conversationId).

(** *** App.tsx *)

Definition getSessionId : Prog string :=
  stored ← perform (getItem "rag_session_id");
  match stored with
  | Some s =>
      if JSString.nonEmpty s then Ret s
      else newId ← perform uuidv4;
           perform (setItem "rag_session_id" newId);;
           Ret newId
  | None =>
      newId ← perform uuidv4;
      perform (setItem "rag_session_id" newId);;
      Ret newId
  end.

(** [error.response?.data?.detail] *)
Definition errorDetail (error : AxiosError) : option string :=
  match response error with
  | None => None
  | Some r => match data r with
              | None => None
              | Some d => detail d
              end
  end.

(** [error.response?.data?.detail || fallback] *)
Definition detailOr (error : AxiosError) (fallback : string) : string :=
  match errorDetail error with
  | Some d => if JSString.nonEmpty d then d else fallback
  | None => fallback
  end.

Definition showSnackbar (message severity : string) : Prog unit :=
  perform (SetState (setSnackbar
    {| open := true; message := message; severity := severity |})).

(** The handlers below close over the state [st] of the render that
    created them. *)

(** [f(...)] for an asynchronous [f] of this component, called and not
    awaited, inside a handler that goes on to await something else: [f]
    runs from the call on, its requests leave in the order of the calls,
    and the caller sees neither its result nor a rejection. The program
    is read to the end of all it starts. In the browser what is left of
    [f] after its first [await] lands when its answer arrives: where the
    caller and [f] both write the same cell of the state after that, the
    order of the two writes is the network's, and nothing is stated below
    of such a cell. *)
Definition start (p : Prog unit) : Prog unit :=
  try_catch p (fun _ => Ret tt).

Definition loadDocuments (st : State) : Prog unit :=
  try_catch
    (docs ← getDocuments (sessionId st);
     perform (SetState (setDocuments docs)))
    (fun error => perform (consoleError "Failed to load documents:")).

Definition loadConversations (st : State) : Prog unit :=
  try_catch
    (convs ← getConversations (sessionId st);
     perform (SetState (setConversations convs)))
    (fun error => perform (consoleError "Failed to load conversations:")).

Definition init (st : State) : Prog unit :=
  try_catch
    (loadDocuments st;;
     loadConversations st;;
     convs ← getConversations (sessionId st);
     match convs with
     | lastConv :: _ =>
         perform (SetState (setConversationId (Some (Conversation.id lastConv))));;
         msgs ← getConversationHistory (Conversation.id lastConv);
         perform (SetState (setMessages (fun _ => msgs)))
     | [] =>
         conv ← createConversation (sessionId st);
         perform (SetState (setConversationId (Some (Conversation.id conv))))
     end)
    (fun error => perform (consoleError "Failed to initialize:")).

(** The mount effect, guarded by the [initialized] ref. *)
Definition mountEffect : Prog unit :=
  done ← perform readInitialized;
  if (done : bool) then Ret tt
  else perform (writeInitialized true);;
       perform (Spawn TaskInit).

Definition handleFileUpload (st : State) (file : File) : Prog unit :=
  perform (SetState (setUploading true));;
  finally
    (try_catch
       (uploadDocument file (sessionId st);;
        showSnackbar (name file ++ " uploaded successfully!") "success";;
        perform (Spawn TaskLoadDocuments))
       (fun error =>
          perform (consoleError "Upload failed:");;
          showSnackbar (detailOr error "Upload failed") "error"))
    (perform (SetState (setUploading false))).

(** [if (!conversationId)]: [null] and the empty string are both refused. *)
Definition handleSendMessage (st : State) (messageText : string) : Prog unit :=
  match conversationId st with
  | None => showSnackbar "Chat not initialized" "error"
  | Some conversationId =>
      if negb (JSString.nonEmpty conversationId) then
        showSnackbar "Chat not initialized" "error"
      else
        userId ← perform uuidv4;
        userTime ← perform toISOString;
        let userMessage :=
          {| Message.id := userId;
             Message.role := "user";
             Message.content := messageText;
             Message.created_at := userTime;
             Message.sources := None;
             Message.confidence := None;
             Message.chart_id := None;
             Message.chart_data := JS.JUndefined |} in
        perform (SetState (setMessages (fun prev => (prev ++ [userMessage])%list)));;
        perform (SetState (setLoading true));;
        finally
          (try_catch
             (response ← sendMessage messageText conversationId (sessionId st);
              let m := ChatResponse.message response in
              let assistantMsg :=
                {| Message.id := Message.id m;
                   Message.role := Message.role m;
                   Message.content := Message.content m;
                   Message.created_at := Message.created_at m;
                   Message.sources :=
                     Some (match ChatResponse.sources response with
                           | Some l => l
                           | None => default [] (Message.sources m)
                           end);
                   Message.confidence := Message.confidence m;
                   Message.chart_id := Message.chart_id m;
                   Message.chart_data :=
                     JS.jsOr (ChatResponse.chart_data response) (Message.chart_data m) |} in
              perform (SetState (setMessages (fun prev => (prev ++ [assistantMsg])%list)));;
              start (loadConversations st))
             (fun error =>
                perform (consoleError "Failed to send message:");;
                errorId ← perform uuidv4;
                errorTime ← perform toISOString;
                let errorMsg :=
                  {| Message.id := errorId;
                     Message.role := "assistant";
                     Message.content :=
                       detailOr error "Failed to get response. Is the backend running?";
                     Message.created_at := errorTime;
                     Message.sources := None;
                     Message.confidence := None;
                     Message.chart_id := None;
                     Message.chart_data := JS.JUndefined |} in
                perform (SetState (setMessages (fun prev => (prev ++ [errorMsg])%list)))))
          (perform (SetState (setLoading false)))
  end.

Definition handleSelectConversation (st : State) (convId : string) : Prog unit :=
  if decide (Some convId = conversationId st) then Ret tt
  else
    perform (SetState (setConversationId (Some convId)));;
    try_catch
      (msgs ← getConversationHistory convId;
       perform (SetState (setMessages (fun _ => msgs))))
      (fun error =>
         perform (consoleError "Failed to load messages:");;
         perform (SetState (setMessages (fun _ => [])))).

Definition handleNewConversation (st : State) : Prog unit :=
  try_catch
    (conv ← createConversation (sessionId st);
     perform (SetState (setConversationId (Some (Conversation.id conv))));;
     perform (SetState (setMessages (fun _ => [])));;
     loadConversations st;;
     showSnackbar "New conversation started" "info")
    (fun error => perform (consoleError "Failed to create conversation:")).

Definition handleDeleteConversation (st : State) (convId : string) : Prog unit :=
  try_catch
    (deleteConversation convId;;
     (if decide (Some convId = conversationId st) then
        match List.filter (fun c => negb (String.eqb (Conversation.id c) convId))
                          (conversations st) with
        | c :: _ => start (handleSelectConversation st (Conversation.id c))
        | [] => start (handleNewConversation st)
        end
      else Ret tt);;
     loadConversations st;;
     showSnackbar "Conversation deleted" "info")
    (fun error => perform (consoleError "Failed to delete conversation:")).

Definition handleDocumentDeleted (st : State) (id : string) : Prog unit :=
  showSnackbar "Document deleted successfully" "success";;
  perform (Spawn TaskLoadDocuments).

(** [onClick] of the menu button. *)
Definition toggleSidebar (st : State) : Prog unit :=
  perform (SetState (setSidebarOpen (negb (sidebarOpen st))));;
  if sidebarOpen st then Ret tt else perform (Spawn TaskLoadConversations).

(** The program behind each task. *)
Definition taskProg (st : State) (t : Task) : Prog unit :=
  match t with
  | TaskInit => init st
  | TaskLoadDocuments => loadDocuments st
  | TaskLoadConversations => loadConversations st
  | TaskSelectConversation convId => handleSelectConversation st convId
  | TaskNewConversation => handleNewConversation st
  end.

End App.

(** ** Running a program in a browser and against a server *)

Module Browser.
Import Api App.

(** What a program can observe and change: React's state of [App], the
    [localStorage] of the origin, the [initialized] ref, and the
    histories of requests, generated ids, clock reads, console lines and
    started tasks. *)
Record World : Type := {
  state : State;
  localStorage : gmap string string;
  initialized : bool;
  requests : list Request;
  uuids : nat;
  ticks : nat;
  console : list string;
  tasks : list Task;
}.

(** The surroundings: the [n]-th result of [uuidv4()], the [n]-th reading
    of the clock, and the outcome the server gives to the [n]-th request. *)
Record Env : Type := {
  uuid : nat -> string;
  clock : nat -> string;
  server : nat -> forall r : Request, AxiosError + Reply r;
}.

Definition handle (env : Env) {X} (e : Eff X) (w : World) : X * World :=
  match e in Eff X return X * World with
  | Http r =>
      (server env (length (requests w)) r,
       {| state := state w; localStorage := localStorage w;
          initialized := initialized w;
          requests := requests w ++ [r]; uuids := uuids w; ticks := ticks w;
          console := console w; tasks := tasks w |})
  | uuidv4 =>
      (uuid env (uuids w),
       {| state := state w; localStorage := localStorage w;
          initialized := initialized w;
          requests := requests w; uuids := S (uuids w); ticks := ticks w;
          console := console w; tasks := tasks w |})
  | toISOString =>
      (clock env (ticks w),
       {| state := state w; localStorage := localStorage w;
          initialized := initialized w;
          requests := requests w; uuids := uuids w; ticks := S (ticks w);
          console := console w; tasks := tasks w |})
  | getItem key => (localStorage w !! key, w)
  | setItem key value =>
      (tt,
       {| state := state w; localStorage := <[key := value]> (localStorage w);
          initialized := initialized w;
          requests := requests w; uuids := uuids w; ticks := ticks w;
          console := console w; tasks := tasks w |})
  | consoleError label =>
      (tt,
       {| state := state w; localStorage := localStorage w;
          initialized := initialized w;
          requests := requests w; uuids := uuids w; ticks := ticks w;
          console := console w ++ [label]; tasks := tasks w |})
  | readInitialized => (initialized w, w)
  | writeInitialized v =>
      (tt,
       {| state := state w; localStorage := localStorage w;
          initialized := v;
          requests := requests w; uuids := uuids w; ticks := ticks w;
          console := console w; tasks := tasks w |})
  | SetState u =>
      (tt,
       {| state := applyUpdate u (state w); localStorage := localStorage w;
          initialized := initialized w;
          requests := requests w; uuids := uuids w; ticks := ticks w;
          console := console w; tasks := tasks w |})
  | Spawn t =>
      (tt,
       {| state := state w; localStorage := localStorage w;
          initialized := initialized w;
          requests := requests w; uuids := uuids w; ticks := ticks w;
          console := console w; tasks := tasks w ++ [t] |})
  end.

(** The outcome of a program, [inl] an exception that reached the caller,
    and the world it leaves, once what it started with [start] has run
    too. A task it recorded with [Spawn] has not run. *)
Fixpoint run (env : Env) {A} (p : Prog A) (w : World) : (AxiosError + A) * World :=
  match p with
  | Ret a => (inr a, w)
  | Throw e => (inl e, w)
  | Vis e k => run env (k (handle env e w).1) (handle env e w).2
  end.

(** The state [App] mounts with: [useState(getSessionId)]. *)
Definition initialState (sessionId : string) : State :=
  {| sessionId := sessionId;
     conversationId := None;
     messages := [];
     documents := [];
     conversations := [];
     uploading := false;
     loading := false;
     sidebarOpen := false;
     snackbar := {| open := false; message := ""; severity := "info" |} |}.

(** Mounting [App]: the lazy initial state [useState(getSessionId)] runs
    once, the other cells take their literals. *)
Definition mount : Prog State :=
  sessionId ← getSessionId;
  Ret (initialState sessionId).

(** Every request a program can issue, whatever it is answered, satisfies
    [P]. *)
Fixpoint allRequests {A} (P : Request -> Prop) (p : Prog A) : Prop :=
  match p with
  | Ret _ | Throw _ => True
  | Vis e k =>
      match e with Http r => P r | _ => True end
      /\ forall x, allRequests P (k x)
  end.

(** A request made for a session is made for [sid]. *)
Definition carries (sid : string) (r : Request) : Prop :=
  forall s, sessionOf r = Some s -> s = sid.

(** Every update of the message list a program can make satisfies [P]. *)
Fixpoint allMessageUpdates {A}
    (P : (list Message.t -> list Message.t) -> Prop) (p : Prog A) : Prop :=
  match p with
  | Ret _ | Throw _ => True
  | Vis e k =>
      match e with SetState (setMessages f) => P f | _ => True end
      /\ forall x, allMessageUpdates P (k x)
  end.

End Browser.

(** ** Sample data *)

Module Examples.
Import JS.

(** A user message carrying every optional field. *)
Definition loadedUserMessage : Message.t :=
  {| Message.id := "m1";
     Message.role := "user";
     Message.content := "What were the sales in 2023?";
     Message.created_at := "2024-05-01T10:00:00.000Z";
     Message.sources :=
       Some [ {| Source.document_id := "d1"; Source.filename := "report.pdf";
                 Source.chunk_index := 0%float; Source.content := Some "Sales rose.";
                 Source.relevance_score := Some 0.9%float |} ];
     Message.confidence := Some 0.9%float;
     Message.chart_id := Some "c1";
     Message.chart_data :=
       JObject [("type", JString "pie");
                ("data", JArray [JObject [("name", JString "Q1");
                                          ("sales", JNumber 10%float)]])] |}.

(** A chart payload of two rows; the second row has a metric, [returns],
    that the first row lacks. *)
Definition salesRows : list JSValue :=
  [ JObject [("name", JString "Q1"); ("sales", JNumber 10%float);
             ("costs", JNumber 4%float)];
    JObject [("name", JString "Q2"); ("sales", JNumber 12%float);
             ("costs", JNumber 5%float); ("returns", JNumber 1%float)] ].

Definition salesChart (type : JSValue) : JSValue :=
  JObject [("type", type); ("title", JString "Sales"); ("data", JArray salesRows)].

Definition sourceScored (score : option float) : Source.t :=
  {| Source.document_id := "d1";
     Source.filename := "report.pdf";
     Source.chunk_index := 3%float;
     Source.content := Some "Sales rose in the second quarter.";
     Source.relevance_score := score |}.

(** An assistant answer citing one source with the given relevance. *)
Definition answerCiting (score : option float) : Message.t :=
  {| Message.id := "m2";
     Message.role := "assistant";
     Message.content := "Sales rose.";
     Message.created_at := "2024-05-01T10:00:05.000Z";
     Message.sources := Some [sourceScored score];
     Message.confidence := Some 0.82%float;
     Message.chart_id := None;
     Message.chart_data := JUndefined |}.

(** An assistant answer with the given confidence and chart payload. *)
Definition answerWith (confidence : option float) (chart_data : JSValue) : Message.t :=
  {| Message.id := "m3";
     Message.role := "assistant";
     Message.content := "Here is the breakdown.";
     Message.created_at := "2024-05-01T10:00:09.000Z";
     Message.sources := Some [];
     Message.confidence := confidence;
     Message.chart_id := None;
     Message.chart_data := chart_data |}.

(** A browser with nothing stored, and a state with an open conversation. *)
Definition freshWorld (st : App.State) (storage : gmap string string) : Browser.World :=
  {| Browser.state := st;
     Browser.localStorage := storage;
     Browser.initialized := false;
     Browser.requests := [];
     Browser.uuids := 0;
     Browser.ticks := 0;
     Browser.console := [];
     Browser.tasks := [] |}.

Definition chatting : App.State :=
  {| App.sessionId := "5f0c2a9e-1111-4222-8333-444455556666";
     App.conversationId := Some "conv-1";
     App.messages := [answerWith None JUndefined];
     App.documents := [];
     App.conversations := [];
     App.uploading := false;
     App.loading := false;
     App.sidebarOpen := false;
     App.snackbar := {| App.open := false; App.message := ""; App.severity := "info" |} |}.

Definition someReply (r : Api.Request) : Api.Reply r :=
  match r with
  | Api.PostUpload f _ =>
      {| Document.id := "d1"; Document.filename := Api.name f;
         Document.original_filename := Api.name f; Document.file_size := 1%float;
         Document.file_type := "txt"; Document.status := "processing";
         Document.created_at := "2024-05-01T10:00:00.000Z" |}
  | Api.PostChat _ _ _ =>
      {| ChatResponse.message := answerCiting (Some 0.9%float);
         ChatResponse.sources := None;
         ChatResponse.chart_data := JNull |}
  | Api.GetConversationMessages _ => []
  | Api.GetDocuments _ => []
  | Api.PostConversations _ =>
      {| Conversation.id := "conv-2"; Conversation.title := "New Conversation";
         Conversation.created_at := "2024-05-01T10:00:00.000Z";
         Conversation.updated_at := "2024-05-01T10:00:00.000Z" |}
  | Api.GetSessionConversations _ => []
  | Api.DeleteConversation _ | Api.DeleteDocument _ | Api.DeleteSession _ => tt
  end.

(** A server that answers every request, and one that rejects every
    request with the given error. *)
Definition uuidOf (n : nat) : string := "00000000-0000-4000-8000-00000000000" ++ pretty n.
Definition timeOf (n : nat) : string := "2024-05-01T10:00:0" ++ pretty n ++ ".000Z".

Definition answering : Browser.Env :=
  {| Browser.uuid := uuidOf;
     Browser.clock := timeOf;
     Browser.server := fun _ r => inr (someReply r) |}.

Definition rejecting (error : Api.AxiosError) : Browser.Env :=
  {| Browser.uuid := uuidOf;
     Browser.clock := timeOf;
     Browser.server := fun _ r => inl error |}.


(** A rejection without a response: the network is down. *)
Definition networkError : Api.AxiosError := {| Api.response := None |}.

End Examples.

(** ** App.tsx: the colour mode *)

Module Theme.
Import App.

(** [(stored as 'dark' | 'light') || 'dark'] *)
Definition getInitialTheme : Prog string :=
  stored ← perform (getItem "rag_theme_mode");
  Ret (match stored with
       | Some s => if JSString.nonEmpty s then s else "dark"
       | None => "dark"
       end).

(** The updater [toggleColorMode] hands to [setMode], for the previous
    mode: it stores the new mode and returns it. *)
Definition toggleColorMode (prevMode : string) : Prog string :=
  let newMode := if String.eqb prevMode "light" then "dark" else "light" in
  perform (setItem "rag_theme_mode" newMode);;
  Ret newMode.

End Theme.

(** ** components/FileUpload.tsx *)

Module FileUpload.
Import Api App.

(** [onDrop], for the [onFileUpload] prop; [App] passes
    [handleFileUpload]. *)
Definition onDrop (onFileUpload : File -> Prog unit) (acceptedFiles : list File)
  : Prog unit :=
  match acceptedFiles with
  | [] => Ret tt
  | file :: _ => onFileUpload file
  end.

(** [disabled] of the drop zone. *)
Definition dropzoneDisabled (uploading : bool) : bool := uploading.

(** [{uploading && (<Box>...Processing...</Box>)}] *)
Definition showsProgress (uploading : bool) : bool := uploading.

End FileUpload.

(** ** components/DocumentList.tsx: deleting a document *)

Module DeleteDialog.
Import Api App.

(** The [useState] cells of [DocumentList]. *)
Record State : Type := {
  deleteId : option string;
  deleting : bool;
  error : option string;
}.

Inductive Update : Type :=
| setDeleteId (v : option string)
| setDeleting (v : bool)
| setError (v : option string).

Definition applyUpdate (u : Update) (st : State) : State :=
  match u with
  | setDeleteId v => {| deleteId := v; deleting := deleting st; error := error st |}
  | setDeleting v => {| deleteId := deleteId st; deleting := v; error := error st |}
  | setError v => {| deleteId := deleteId st; deleting := deleting st; error := v |}
  end.




Definition handleDeleteClick (id : string) : list Update := [setDeleteId (Some id)].

(** [onClose] of the dialog and its Cancel button. *)
Definition cancel : list Update := [setDeleteId None].



End DeleteDialog.

(** ** components/ChatInterface.tsx: the messages area *)

Module ChatView.
Import JS.

(** [messages.map((message) => <MessageBubble .../>)], each bubble in its
    first render; one bubble that throws takes the list with it. *)
Fixpoint renderAll (messages : list Message.t) : Result (list MessageBubble.View) :=
  match messages with
  | [] => Ok []
  | message :: rest =>
      rbind (MessageBubble.MessageBubble message false) (fun bubble =>
      rbind (renderAll rest) (fun bubbles =>
      Ok (bubble :: bubbles)))
  end.

Inductive MessagesArea : Type :=
| Welcome
| Thread (bubbles : list MessageBubble.View) (thinking : bool).

Definition messagesArea (messages : list Message.t) (loading : bool)
  : Result MessagesArea :=
  match messages with
  | [] => Ok Welcome
  | _ => rbind (renderAll messages) (fun bubbles => Ok (Thread bubbles loading))
  end.

End ChatView.

(** ** What a program can do *)

Module Traces.
Import Api App.

(** No answer to its effects makes the program throw. *)
Fixpoint neverThrows {A} (p : Prog A) : Prop :=
  match p with
  | Ret _ => True
  | Throw _ => False
  | Vis _ k => forall x, neverThrows (k x)
  end.

(** Every state update the program can make satisfies [P]. *)
Fixpoint allUpdates {A} (P : Update -> Prop) (p : Prog A) : Prop :=
  match p with
  | Ret _ | Throw _ => True
  | Vis e k =>
      match e with SetState u => P u | _ => True end
      /\ forall x, allUpdates P (k x)
  end.

(** The setters a send may call, that of the reload it starts among
    them. *)
Definition sendUpdate (u : Update) : Prop :=
  match u with
  | setMessages _ | setLoading _ | setSnackbar _ | setConversations _ => True
  | _ => False
  end.

End Traces.

(** ** More sample data *)

Module Servers.
Import Api App Browser Examples.

(** A server that rejects the first request it gets and answers the
    others. *)
Definition failingFirst (error : AxiosError) : Env :=
  {| uuid := uuidOf;
     clock := timeOf;
     server := fun n r => if Nat.eqb n 0 then inl error else inr (someReply r) |}.

(** A server that holds the given conversations. *)
Definition holding (convs : list Conversation.t) : Env :=
  {| uuid := uuidOf;
     clock := timeOf;
     server := fun _ r =>
       match r as r0 return AxiosError + Reply r0 with
       | GetSessionConversations _ => inr convs
       | r0 => inr (someReply r0)
       end |}.

Definition conversationNamed (id title : string) : Conversation.t :=
  {| Conversation.id := id; Conversation.title := title;
     Conversation.created_at := "2024-05-01T10:00:00.000Z";
     Conversation.updated_at := "2024-05-01T10:00:00.000Z" |}.

Definition reportFile : File := {| name := "report.pdf"; body := "%PDF-1.7" |}.

End Servers.

(** ** App.tsx: the chat input wired to the send handler *)

Module Wiring.
Import App.

(** [<ChatInterface onSendMessage={handleSendMessage} loading={loading}/>]:
    what [handleSend] of the chat input sets off in [App], for the state
    [st] of the render. *)
Definition sendFromInput (st : State) (input : string) : Prog unit :=
  foldr (fun action rest =>
           match action with
           | ChatInterface.onSendMessage messageText =>
               handleSendMessage st messageText;; rest
           | _ => rest
           end)
        (Ret tt)
        (ChatInterface.handleSend input (loading st)).

End Wiring.

(* ===================================================================== *)
(** * Part II: properties                                                 *)
(* ===================================================================== *)

(** ** Strings *)

#[local] Arguments String.append !_ _ / : simpl nomatch.

Section StringFacts.
Import JSString.

Lemma nonEmpty_false (s : string) : nonEmpty s = false <-> s = "".
Proof. destruct s; cbn; split; congruence. Qed.

Lemma nonEmpty_true (s : string) : nonEmpty s = true <-> s <> "".
Proof. destruct s; cbn; split; congruence. Qed.

Lemma append_empty_r (s : string) : s ++ "" = s.
Proof. induction s as [| c s IH]; cbn; congruence. Qed.

Lemma append_assoc (a b c : string) : (a ++ b) ++ c = a ++ b ++ c.
Proof. induction a as [| x a IH]; cbn; congruence. Qed.

Lemma allWhiteSpace_app (a b : string) :
  allWhiteSpace (a ++ b) = allWhiteSpace a && allWhiteSpace b.
Proof.
  induction a as [| c a IH]; cbn; [reflexivity |].
  rewrite IH. now destruct (isWhiteSpace c).
Qed.

(** [trimStart] removes a prefix of white space and stops at the first
    other character. *)
Lemma trimStart_spec (s : string) :
  exists l : string,
    s = l ++ trimStart s /\ allWhiteSpace l = true
    /\ startsWithWhiteSpace (trimStart s) = false.
Proof.
  induction s as [| c s (l & Hs & Hl & Hstart)]; cbn.
  - exists "". auto.
  - destruct (isWhiteSpace c) eqn:Hc.
    + exists (String c l). cbn. rewrite Hc, Hl. split; [congruence | auto].
    + exists "". cbn. auto.
Qed.

Lemma trimEnd_empty (s : string) : trimEnd s = "" <-> allWhiteSpace s = true.
Proof.
  induction s as [| c s IH]; cbn; [tauto |].
  destruct (trimEnd s) eqn:Ht.
  - destruct (isWhiteSpace c); cbn; [tauto |]. split; discriminate.
  - split; [discriminate |]. intros H. apply andb_true_iff in H as [_ H].
    apply IH in H. discriminate.
Qed.

(** [trimEnd] removes a suffix of white space and stops at the last other
    character; it leaves the front alone. *)
Lemma trimEnd_spec (s : string) :
  exists r : string,
    s = trimEnd s ++ r /\ allWhiteSpace r = true
    /\ endsWithWhiteSpace (trimEnd s) = false
    /\ startsWithWhiteSpace (trimEnd s) = startsWithWhiteSpace s && nonEmpty (trimEnd s).
Proof.
  induction s as [| c s (r & Hs & Hr & Hend & Hstart)]; cbn.
  - exists "". auto.
  - destruct (trimEnd s) eqn:Ht.
    + destruct (isWhiteSpace c) eqn:Hc.
      * exists (String c s). cbn. rewrite Hc. repeat split; try reflexivity.
        cbn in Hs. subst r. now rewrite Hr.
      * exists s. cbn. rewrite Hc. cbn in Hs. subst r. auto.
    + exists r. cbn in *. repeat split; try assumption.
      * congruence.
      * now rewrite andb_true_r.
Qed.

(** [trim]: the input is white space, the trimmed text, white space; and
    the trimmed text neither starts nor ends with white space. *)
Lemma trim_spec (s : string) :
  exists l r : string,
    s = l ++ trim s ++ r
    /\ allWhiteSpace l = true /\ allWhiteSpace r = true
    /\ startsWithWhiteSpace (trim s) = false
    /\ endsWithWhiteSpace (trim s) = false.
Proof.
  unfold trim.
  destruct (trimStart_spec s) as (l & Hs & Hl & Hstart).
  destruct (trimEnd_spec (trimStart s)) as (r & Ht & Hr & Hend & Hst).
  exists l, r. repeat split; try assumption.
  - now rewrite <- Ht.
  - rewrite Hst, Hstart. reflexivity.
Qed.

Lemma trim_empty (s : string) : trim s = "" <-> allWhiteSpace s = true.
Proof.
  unfold trim. rewrite trimEnd_empty.
  destruct (trimStart_spec s) as (l & Hs & Hl & _).
  rewrite Hs at 2. rewrite allWhiteSpace_app, Hl. reflexivity.
Qed.

Lemma nonEmpty_trim (s : string) : nonEmpty (trim s) = negb (allWhiteSpace s).
Proof.
  destruct (allWhiteSpace s) eqn:H.
  - apply trim_empty in H. now rewrite H.
  - destruct (nonEmpty (trim s)) eqn:Hn; [reflexivity |].
    apply nonEmpty_false, trim_empty in Hn. congruence.
Qed.

Lemma startsWith_spec (s q : string) :
  startsWith s q = true <-> exists post : string, s = q ++ post.
Proof.
  revert s. induction q as [| c q IH]; intros s; cbn.
  - split; [intros _; exists s; reflexivity | reflexivity].
  - destruct s as [| d s]; [split; [discriminate | intros [post H]; discriminate] |].
    destruct (Ascii.eqb_spec c d) as [<- | Hne]; cbn.
    + rewrite IH. split; intros [post H]; exists post; congruence.
    + split; [discriminate | intros [post H]; congruence].
Qed.

(** [s.includes(q)] decides occurrence. *)
Lemma includes_spec (s q : string) : includes s q = true <-> occursIn q s.
Proof.
  unfold occursIn. induction s as [| c s IH]; cbn [includes].
  - destruct (startsWith "" q) eqn:Hp.
    + apply startsWith_spec in Hp as [post Hp]. split; [| reflexivity].
      intros _. exists "", post. exact Hp.
    + split; [discriminate |]. intros (pre & post & H).
      destruct pre; [| discriminate]. cbn in H.
      assert (startsWith "" q = true) by (apply startsWith_spec; eauto). congruence.
  - destruct (startsWith (String c s) q) eqn:Hp.
    + apply startsWith_spec in Hp as [post Hp]. split; [| reflexivity].
      intros _. exists "", post. exact Hp.
    + rewrite IH. split.
      * intros (pre & post & H). exists (String c pre), post. cbn. congruence.
      * intros (pre & post & H). destruct pre as [| d pre].
        -- cbn in H.
           assert (startsWith (String c s) q = true) by (apply startsWith_spec; eauto).
           congruence.
        -- cbn in H. injection H as _ H. eauto.
Qed.

Lemma includes_empty (s : string) : includes s "" = true.
Proof. apply includes_spec. exists "", s. reflexivity. Qed.

Lemma toLowerCase_empty (s : string) : toLowerCase s = "" <-> s = "".
Proof. destruct s; cbn; split; congruence. Qed.

Lemma lowerChar_idempotent (c : ascii) : lowerChar (lowerChar c) = lowerChar c.
Proof.
  destruct c as [[] [] [] [] [] [] [] []]; vm_compute; reflexivity.
Qed.

Lemma toLowerCase_idempotent (s : string) :
  toLowerCase (toLowerCase s) = toLowerCase s.
Proof.
  induction s as [| c s IH]; cbn; [reflexivity |].
  now rewrite lowerChar_idempotent, IH.
Qed.

End StringFacts.

(** ** DocumentList: the status chip *)

Section DocumentListFacts.
Import DocumentList.

Lemma getStatusColor_other (status : string) :
  status <> "ready" -> status <> "processing" -> status <> "failed" ->
  getStatusColor status = "default" /\ getStatusIcon status = None.
Proof.
  intros Hr Hp Hf. unfold getStatusColor, getStatusIcon.
  apply String.eqb_neq in Hr, Hp, Hf. now rewrite Hr, Hp, Hf.
Qed.

(** C5. The status chip of a document shows ['ready'] as colour
    ['success'] with the check icon, ['processing'] as ['warning'] with
    the hourglass icon, ['failed'] as ['error'] with the error icon, and
    every other status string as ['default'] with no icon; the three
    states of the status set get pairwise distinct colours and icons,
    none of them the default look. The chip's label is the status. *)
Theorem status_chip_states :
  statusChip "ready"
    = {| chip_label := "ready"; chip_color := "success";
         chip_icon := Some CheckCircleIcon |}
  /\ statusChip "processing"
    = {| chip_label := "processing"; chip_color := "warning";
         chip_icon := Some HourglassEmptyIcon |}
  /\ statusChip "failed"
    = {| chip_label := "failed"; chip_color := "error";
         chip_icon := Some ErrorIcon |}
  /\ (forall status : string,
        status <> "ready" -> status <> "processing" -> status <> "failed" ->
        statusChip status
          = {| chip_label := status; chip_color := "default"; chip_icon := None |})
  /\ (forall s1 s2 : string,
        s1 ∈ ["ready"; "processing"; "failed"] ->
        s2 ∈ ["ready"; "processing"; "failed"] ->
        s1 <> s2 ->
        chip_color (statusChip s1) <> chip_color (statusChip s2)
        /\ chip_icon (statusChip s1) <> chip_icon (statusChip s2)
        /\ chip_color (statusChip s1) <> "default"
        /\ chip_icon (statusChip s1) <> None).
Proof.
  split; [reflexivity|]. split; [reflexivity|]. split; [reflexivity|]. split.
  - intros status Hr Hp Hf. unfold statusChip.
    destruct (getStatusColor_other status Hr Hp Hf) as [-> ->]. reflexivity.
  - intros s1 s2 H1 H2 Hne.
    assert (Hcases : forall s : string, s ∈ ["ready"; "processing"; "failed"] ->
              s = "ready" \/ s = "processing" \/ s = "failed").
    { intros s Hs. repeat (apply elem_of_cons in Hs as [Hs | Hs]; [tauto |]).
      apply elem_of_nil in Hs. contradiction. }
    destruct (Hcases s1 H1) as [-> | [-> | ->]];
      destruct (Hcases s2 H2) as [-> | [-> | ->]];
      try congruence; repeat split; discriminate.
Qed.

Lemma status_chip_states_witness :
  statusChip "queued"
    = {| chip_label := "queued"; chip_color := "default"; chip_icon := None |}
  /\ chip_color (statusChip "ready") <> chip_color (statusChip "failed").
Proof.
  destruct status_chip_states as (_ & _ & _ & Hother & Hdistinct).
  split.
  - apply Hother; discriminate.
  - apply (Hdistinct "ready" "failed"); [repeat constructor | repeat constructor | discriminate].
Defined.

End DocumentListFacts.

(** ** ChartVisualizer and MessageBubble *)

Section ChartFacts.
Import JS ChartVisualizer.

Lemma map_dataKey_imap (f : nat -> nat) (dataKeys : list string) :
  map dataKey
      (imap (fun index key => {| dataKey := key; color := colorAt (f index) |}) dataKeys)
  = dataKeys.
Proof.
  revert f. induction dataKeys as [| key dataKeys IH]; intros f; [reflexivity |].
  cbn. f_equal. apply (IH (fun index => f (S index))).
Qed.

(** The series of a chart carry the data keys, in order. *)
Lemma map_dataKey_seriesOf (dataKeys : list string) :
  map dataKey (seriesOf dataKeys) = dataKeys.
Proof. apply (map_dataKey_imap (fun index => index)). Qed.

(** The guard is what keeps the component from reading the keys of a row
    that is not there: without it, an empty array throws. *)
Lemma body_of_no_rows (title type : JSValue) :
  body (JArray []) title type = TypeError.
Proof. reflexivity. Qed.

(** A payload whose [data] is missing or empty gives [null]. *)
Lemma ChartVisualizer_null (data title type : JSValue) :
  truthy data = false
  \/ get data "data" = Ok JUndefined
  \/ get data "data" = Ok JNull
  \/ get data "data" = Ok (JArray []) ->
  ChartVisualizer data title type = Ok None.
Proof.
  unfold ChartVisualizer. intros [H | [H | [H | H]]].
  - now rewrite H.
  - destruct (truthy data); [| reflexivity]. now rewrite H.
  - destruct (truthy data); [| reflexivity]. now rewrite H.
  - destruct (truthy data); [| reflexivity]. now rewrite H.
Qed.

(** A payload whose first row has keys is drawn from that row. *)
Lemma ChartVisualizer_rows (data title type row : JSValue) (rest : list JSValue)
    (rowKeys : list string) :
  get data "data" = Ok (JArray (row :: rest)) ->
  Object_keys row = Ok rowKeys ->
  ChartVisualizer data title type
  = rbind (renderChart (match type with JUndefined => JString "bar" | _ => type end)
             (JArray (row :: rest))
             (List.filter (fun key => negb (String.eqb key "name")) rowKeys))
      (fun c => Ok (Some {| heading := jsxAnd title title; chart := c |})).
Proof.
  intros H Hkeys. unfold ChartVisualizer.
  assert (Ht : truthy data = true) by (destruct data; try discriminate; reflexivity).
  rewrite Ht, H. cbn. unfold body, dataKeysOf. cbn. rewrite Hkeys. reflexivity.
Qed.

End ChartFacts.

Section MessageBubbleFacts.
Import JS MessageBubble Examples.

(** C1. A message whose role is ['user'] is rendered without evidence
    sources, confidence chip or chart, whatever its [sources],
    [confidence] and [chart_data] fields hold: [hasSources] and [hasChart]
    are [false], and the bubble is its content and its time only; the
    metadata row, the chart box and the sources panel are the [false]
    React skips. *)
Theorem user_bubble_plain (message : Message.t) (sourcesOpen : bool) :
  Message.role message = "user" ->
  hasSources message = JBool false
  /\ hasChart message = JBool false
  /\ MessageBubble message sourcesOpen
     = Ok {| isUser := true;
             content := Message.content message;
             chart := Value (JBool false);
             metadata := Value (JBool false);
             userTime := Element (Message.created_at message);
             sourcesPanel := Value (JBool false) |}
  /\ rendersNothing (Value (JBool false) : Child MetaRow) = true.
Proof.
  intros Hrole.
  assert (Hs : hasSources message = JBool false)
    by (unfold hasSources; now rewrite Hrole).
  assert (Hc : hasChart message = JBool false)
    by (unfold hasChart; now rewrite Hrole).
  repeat split; try assumption.
  unfold MessageBubble. rewrite Hc, Hs, Hrole. reflexivity.
Qed.

Lemma user_bubble_plain_witness :
  Message.role loadedUserMessage = "user"
  /\ MessageBubble loadedUserMessage true
     = Ok {| isUser := true;
             content := "What were the sales in 2023?";
             chart := Value (JBool false);
             metadata := Value (JBool false);
             userTime := Element "2024-05-01T10:00:00.000Z";
             sourcesPanel := Value (JBool false) |}.
Proof.
  split; [reflexivity |].
  exact (proj1 (proj2 (proj2
           (user_bubble_plain loadedUserMessage true eq_refl)))).
Defined.

(** The metadata row is an element exactly for the other roles. *)
Lemma metadata_row_iff (message : Message.t) (sourcesOpen : bool) (v : View) :
  MessageBubble message sourcesOpen = Ok v ->
  (exists row, metadata v = Element row) <-> Message.role message <> "user".
Proof.
  unfold MessageBubble. intros H.
  destruct (truthy (hasChart message)).
  - destruct (chartBox (Message.chart_data message)); [| discriminate].
    cbn in H. injection H as <-. cbn.
    destruct (String.eqb_spec (Message.role message) "user") as [-> | Hne]; cbn.
    + split; [intros [row Hrow]; discriminate | congruence].
    + split; [auto | eauto].
  - cbn in H. injection H as <-. cbn.
    destruct (String.eqb_spec (Message.role message) "user") as [-> | Hne]; cbn.
    + split; [intros [row Hrow]; discriminate | congruence].
    + split; [auto | eauto].
Qed.

Lemma get_of_truthy (v : JSValue) (k : string) :
  truthy v = true -> exists x, get v k = Ok x.
Proof. destruct v; cbn; intros H; try discriminate; eauto. Qed.

Lemma chartBox_null (chart_data : JSValue) :
  truthy chart_data = true ->
  get chart_data "data" = Ok JUndefined
  \/ get chart_data "data" = Ok JNull
  \/ get chart_data "data" = Ok (JArray []) ->
  chartBox chart_data = Ok None.
Proof.
  intros Ht H. unfold chartBox.
  destruct (get_of_truthy chart_data "title" Ht) as [title ->].
  destruct (get_of_truthy chart_data "type" Ht) as [type ->].
  cbn. apply ChartVisualizer_null. tauto.
Qed.

(** C2. A chart payload that is missing ([undefined] or [null]), or whose
    [data] is missing, or whose [data] has no rows, does not cost the
    answer its text: [ChartVisualizer] returns [null] on it, without a
    [TypeError] from reading the keys of a first row that is not there,
    and [MessageBubble] renders, with [message.content] unchanged and no
    chart drawn. *)
Theorem empty_chart_keeps_text (message : Message.t) (sourcesOpen : bool)
    (title type : JSValue) :
  Message.chart_data message = JUndefined
  \/ Message.chart_data message = JNull
  \/ get (Message.chart_data message) "data" = Ok JUndefined
  \/ get (Message.chart_data message) "data" = Ok JNull
  \/ get (Message.chart_data message) "data" = Ok (JArray []) ->
  ChartVisualizer.ChartVisualizer (Message.chart_data message) title type = Ok None
  /\ exists v : View,
       MessageBubble message sourcesOpen = Ok v
       /\ content v = Message.content message
       /\ forall paper, chart v <> Element (Some paper).
Proof.
  intros H. split.
  - apply ChartVisualizer_null.
    destruct H as [-> | [-> | H]]; [left; reflexivity | left; reflexivity | tauto].
  - unfold MessageBubble.
    destruct (truthy (hasChart message)) eqn:Hhas.
    + assert (Hcd : truthy (Message.chart_data message) = true).
      { unfold hasChart, JS.jsAnd in Hhas.
        destruct (String.eqb (Message.role message) "user"); cbn in Hhas;
          [discriminate | assumption]. }
      rewrite chartBox_null.
      * cbn. eexists. split; [reflexivity |]. cbn. split; [reflexivity |].
        intros paper. discriminate.
      * assumption.
      * destruct H as [H | [H | H]]; [| | assumption];
          rewrite H in Hcd; discriminate.
    + cbn. eexists. split; [reflexivity |]. cbn. split; [reflexivity |].
      intros paper. discriminate.
Qed.

Lemma empty_chart_keeps_text_witness :
  ChartVisualizer.ChartVisualizer (JObject [("type", JString "bar"); ("data", JArray [])])
    (JString "Data Visualization") (JString "bar") = Ok None
  /\ exists v : View,
       MessageBubble
         (answerWith None (JObject [("type", JString "bar"); ("data", JArray [])])) false
       = Ok v
       /\ content v = "Here is the breakdown."
       /\ forall paper, chart v <> Element (Some paper).
Proof.
  apply (empty_chart_keeps_text
           (answerWith None (JObject [("type", JString "bar"); ("data", JArray [])]))
           false (JString "Data Visualization") (JString "bar")).
  right. right. right. right. reflexivity.
Defined.

(** A row that is [null] is beyond what the guard covers: the bubble
    throws while rendering. *)
Lemma null_row_throws :
  MessageBubble (answerWith None (JObject [("data", JArray [JNull])])) false = TypeError.
Proof. reflexivity. Qed.

(** The amended C7. For a payload whose [data] is a non-empty array whose
    first row is neither [null] nor [undefined], the row has keys (an
    object [{name, ...metrics}] has its property names), and the series of
    a line or bar chart are exactly the keys of that first row other than
    ['name'], in their order, whatever the later rows hold; a pie chart
    takes the first of these keys as its one data key; a [type] other than
    ['line'] and ['pie'], [undefined] included, gives the bar chart; and
    [MessageBubble] hands over ['bar'] when [chart_data.type] is missing
    or falsy. *)
Theorem chart_series_of_first_row (data title type row : JSValue)
    (rest : list JSValue) :
  get data "data" = Ok (JArray (row :: rest)) ->
  row <> JNull ->
  row <> JUndefined ->
  exists rowKeys : list string,
    Object_keys row = Ok rowKeys
    /\ let chartData := JArray (row :: rest) in
       let keys := List.filter (fun key => negb (String.eqb key "name")) rowKeys in
       ChartVisualizer.ChartVisualizer data title type
       = Ok (Some {| ChartVisualizer.heading := jsxAnd title title;
                     ChartVisualizer.chart :=
                       if isString type "line"
                       then ChartVisualizer.LineChart chartData
                              (ChartVisualizer.seriesOf keys)
                       else if isString type "pie"
                       then ChartVisualizer.PieChart chartData (head keys)
                              (imap (fun index _ => ChartVisualizer.colorAt index)
                                    (row :: rest))
                       else ChartVisualizer.BarChart chartData
                              (ChartVisualizer.seriesOf keys) |})
       /\ map ChartVisualizer.dataKey (ChartVisualizer.seriesOf keys) = keys
       /\ (forall key : string, key ∈ keys <-> key ∈ rowKeys /\ key <> "name")
       /\ (forall props : list (string * JSValue),
             row = JObject props -> rowKeys = map fst props)
       /\ (forall t : JSValue,
             get data "type" = Ok t -> truthy t = false ->
             exists heading,
               chartBox data
               = Ok (Some {| ChartVisualizer.heading := heading;
                             ChartVisualizer.chart :=
                               ChartVisualizer.BarChart chartData
                                 (ChartVisualizer.seriesOf keys) |})).
Proof.
  intros Hdata Hnull Hundef.
  assert (Hsome : exists rowKeys, Object_keys row = Ok rowKeys)
    by (destruct row; cbn; eauto; contradiction).
  destruct Hsome as [rowKeys Hkeys]. exists rowKeys. split; [exact Hkeys |].
  intros chartData keys.
  assert (Hrows : forall title' type',
            ChartVisualizer.ChartVisualizer data title' type'
            = Ok (Some {| ChartVisualizer.heading := jsxAnd title' title';
                          ChartVisualizer.chart :=
                            if isString type' "line"
                            then ChartVisualizer.LineChart chartData
                                   (ChartVisualizer.seriesOf keys)
                            else if isString type' "pie"
                            then ChartVisualizer.PieChart chartData (head keys)
                                   (imap (fun index _ => ChartVisualizer.colorAt index)
                                         (row :: rest))
                            else ChartVisualizer.BarChart chartData
                                   (ChartVisualizer.seriesOf keys) |})).
  { intros title' type'. rewrite (ChartVisualizer_rows _ _ _ _ _ _ Hdata Hkeys).
    fold keys. fold chartData. unfold ChartVisualizer.renderChart.
    destruct type'; try reflexivity.
    cbn [isString]. destruct (String.eqb s "line"); [reflexivity |].
    destruct (String.eqb s "pie"); reflexivity. }
  split; [apply Hrows |]. split; [apply map_dataKey_seriesOf |].
  split.
  { intros key. subst keys. rewrite !list_elem_of_In, filter_In.
    rewrite negb_true_iff, String.eqb_neq. reflexivity. }
  split.
  { intros props ->. cbn in Hkeys. congruence. }
  intros t Ht Hfalsy. unfold chartBox.
  assert (Htruthy : truthy data = true)
    by (destruct data; try discriminate; reflexivity).
  destruct (get_of_truthy data "title" Htruthy) as [title' ->].
  rewrite Ht. cbn [rbind]. unfold JS.jsOr at 2. rewrite Hfalsy.
  rewrite Hrows. cbn. eauto.
Qed.

Lemma chart_series_of_first_row_witness :
  map ChartVisualizer.dataKey
      (ChartVisualizer.seriesOf
         (List.filter (fun key => negb (String.eqb key "name"))
            ["name"; "sales"; "costs"]))
  = ["sales"; "costs"]
  /\ ChartVisualizer.ChartVisualizer (salesChart (JString "pie")) (JString "Sales")
       (JString "pie")
     = Ok (Some {| ChartVisualizer.heading := Element (JString "Sales");
                   ChartVisualizer.chart :=
                     ChartVisualizer.PieChart (JArray salesRows) (Some "sales")
                       ["#0088FE"; "#00C49F"] |}).
Proof.
  destruct (chart_series_of_first_row (salesChart (JString "pie"))
              (JString "Sales") (JString "pie")
              (JObject [("name", JString "Q1"); ("sales", JNumber 10%float);
                        ("costs", JNumber 4%float)])
              [JObject [("name", JString "Q2"); ("sales", JNumber 12%float);
                        ("costs", JNumber 5%float); ("returns", JNumber 1%float)]]
              eq_refl ltac:(discriminate) ltac:(discriminate))
    as (rowKeys & Hrow & Hchart & Hkeys & _).
  injection Hrow as <-.
  split; [exact Hkeys | exact Hchart].
Defined.

(** C7 as stated fails on a non-empty data array whose first row is
    [null]: the server sends [{"type": "bar", "data": [null, {...}]}],
    the guard lets it through, [Object.keys(null)] throws, and no series
    is plotted, for the chart alone and for the bubble that holds it. *)
Lemma chart_null_first_row :
  let rows := [JNull; JObject [("name", JString "Q2"); ("sales", JNumber 12%float)]] in
  let data := JObject [("type", JString "bar"); ("data", JArray rows)] in
  get data "data" = Ok (JArray rows)
  /\ ChartVisualizer.ChartVisualizer data (JString "Data Visualization") (JString "bar")
     = TypeError
  /\ MessageBubble (answerWith None data) false = TypeError
  /\ ~ (exists paper : ChartVisualizer.Paper,
          ChartVisualizer.ChartVisualizer data (JString "Data Visualization")
            (JString "bar")
          = Ok (Some paper)).
Proof.
  split; [reflexivity |]. split; [reflexivity |]. split; [reflexivity |].
  intros [paper H]. discriminate H.
Qed.

End MessageBubbleFacts.

(** ** ChatInterface: sending *)

Section ChatInterfaceFacts.
Import JSString ChatInterface.

(** C8. [handleSend] hands a message to [onSendMessage] only when the
    trimmed input is not empty and no request is in flight; the message is
    the trimmed input, that is the input without the white space around
    it, and the input field is emptied right after. An input of white
    space only, or any input while loading, sends nothing and leaves the
    field as it is. Enter without Shift and a click on the enabled button
    do the same, and the button is disabled in exactly the cases that send
    nothing. *)
Theorem handleSend_sends_trimmed (input : string) (loading : bool) :
  handleSend input loading
  = (if allWhiteSpace input || loading then []
     else [onSendMessage (trim input); setInput ""])
  /\ sent (handleSend input loading)
     = (if allWhiteSpace input || loading then [] else [trim input])
  /\ inputAfter input (handleSend input loading)
     = (if allWhiteSpace input || loading then input else "")
  /\ (exists l r : string,
        input = l ++ trim input ++ r
        /\ allWhiteSpace l = true /\ allWhiteSpace r = true
        /\ startsWithWhiteSpace (trim input) = false
        /\ endsWithWhiteSpace (trim input) = false)
  /\ sendDisabled input loading = (allWhiteSpace input || loading)
  /\ clickSend input loading = handleSend input loading
  /\ handleKeyDown "Enter" false input loading
     = preventDefault :: handleSend input loading
  /\ sent (handleKeyDown "Enter" false input loading)
     = sent (handleSend input loading).
Proof.
  assert (Hsend : handleSend input loading
                  = if allWhiteSpace input || loading then []
                    else [onSendMessage (trim input); setInput ""]).
  { unfold handleSend. rewrite nonEmpty_trim.
    destruct (allWhiteSpace input), loading; reflexivity. }
  split; [exact Hsend |].
  split; [rewrite Hsend; now destruct (allWhiteSpace input || loading) |].
  split; [rewrite Hsend; now destruct (allWhiteSpace input || loading) |].
  split; [apply trim_spec |].
  assert (Hdis : sendDisabled input loading = (allWhiteSpace input || loading)).
  { unfold sendDisabled. rewrite nonEmpty_trim.
    now destruct (allWhiteSpace input). }
  split; [exact Hdis |].
  split.
  - unfold clickSend. rewrite Hdis, Hsend.
    now destruct (allWhiteSpace input || loading).
  - split; reflexivity.
Qed.

(** Enter with Shift, and every other key, is left to the text field. *)
Lemma handleKeyDown_other (key : string) (shiftKey : bool)
    (input : string) (loading : bool) :
  key <> "Enter" \/ shiftKey = true ->
  handleKeyDown key shiftKey input loading = [].
Proof.
  unfold handleKeyDown. intros [H | ->].
  - apply String.eqb_neq in H. now rewrite H.
  - now rewrite andb_false_r.
Qed.

End ChatInterfaceFacts.

(** ** ConversationSidebar: the search filter *)

Section ConversationSidebarFacts.
Import JSString ConversationSidebar.

Lemma filter_all {A} (f : A -> bool) (l : list A) :
  (forall x, f x = true) -> List.filter f l = l.
Proof.
  intros H. induction l as [| x l IH]; cbn; [reflexivity |].
  now rewrite H, IH.
Qed.

Lemma filter_sublist {A} (f : A -> bool) (l : list A) :
  sublist (List.filter f l) l.
Proof.
  induction l as [| x l IH]; cbn; [constructor |].
  destruct (f x); now constructor.
Qed.

(** The filter as one expression for every query, the empty one included. *)
Lemma filteredConversations_filter (searchQuery : string)
    (conversations : list Conversation.t) :
  filteredConversations searchQuery conversations
  = List.filter
      (fun conv => includes (toLowerCase (Conversation.title conv))
                            (toLowerCase searchQuery))
      conversations.
Proof.
  unfold filteredConversations. destruct searchQuery as [| c q]; [| reflexivity].
  cbn. symmetry. apply filter_all. intros conv. apply includes_empty.
Qed.

(** C10. The filtered list of the sidebar is the list of conversations
    filtered by "the lower-cased title contains the lower-cased query":
    it is a sublist of the conversations (same order, nothing added or
    repeated, every entry as it was), holding exactly the conversations
    whose title contains the query when case is ignored; the empty query
    gives the full list; and two queries that differ in case only give the
    same list. *)
Theorem filteredConversations_spec (searchQuery : string)
    (conversations : list Conversation.t) :
  filteredConversations searchQuery conversations
  = List.filter
      (fun conv => includes (toLowerCase (Conversation.title conv))
                            (toLowerCase searchQuery))
      conversations
  /\ (forall title : string,
        includes (toLowerCase title) (toLowerCase searchQuery) = true
        <-> containsIgnoringCase title searchQuery)
  /\ sublist (filteredConversations searchQuery conversations) conversations
  /\ (forall conv : Conversation.t,
        conv ∈ filteredConversations searchQuery conversations
        <-> conv ∈ conversations
            /\ containsIgnoringCase (Conversation.title conv) searchQuery)
  /\ filteredConversations "" conversations = conversations
  /\ (forall other : string,
        toLowerCase other = toLowerCase searchQuery ->
        filteredConversations other conversations
        = filteredConversations searchQuery conversations)
  /\ (NoDup conversations ->
      NoDup (filteredConversations searchQuery conversations)).
Proof.
  split; [apply filteredConversations_filter |].
  split; [intros title; apply includes_spec |].
  assert (Hsub : sublist (filteredConversations searchQuery conversations) conversations).
  { rewrite filteredConversations_filter. apply filter_sublist. }
  split; [exact Hsub |].
  split.
  - intros conv. rewrite filteredConversations_filter.
    rewrite list_elem_of_In, filter_In, <- list_elem_of_In, includes_spec.
    reflexivity.
  - split; [reflexivity |]. split.
    + intros other Heq. rewrite !filteredConversations_filter, Heq. reflexivity.
    + intros Hnd. eapply sublist_NoDup; eassumption.
Qed.

Lemma filteredConversations_spec_witness :
  let convs :=
    [ {| Conversation.id := "c1"; Conversation.title := "Quarterly Sales";
         Conversation.created_at := "t1"; Conversation.updated_at := "t1" |};
      {| Conversation.id := "c2"; Conversation.title := "Hiring plan";
         Conversation.created_at := "t2"; Conversation.updated_at := "t2" |};
      {| Conversation.id := "c3"; Conversation.title := "sales forecast";
         Conversation.created_at := "t3"; Conversation.updated_at := "t3" |} ] in
  filteredConversations "sAlEs" convs = filteredConversations "SALES" convs
  /\ NoDup (filteredConversations "SALES" convs).
Proof.
  intros convs.
  destruct (filteredConversations_spec "SALES" convs)
    as (_ & _ & _ & _ & _ & Hcase & Hnd).
  split.
  - apply Hcase. reflexivity.
  - apply Hnd. apply NoDup_ListNoDup.
    repeat (constructor; [cbn; intuition discriminate |]). constructor.
Defined.

End ConversationSidebarFacts.

(** ** App: running the handlers *)

Section RunFacts.
Import Api App Browser.
Context (env : Env).

Lemma run_bind {A B} (p : Prog A) (f : A -> Prog B) (w : World) :
  run env (bind p f) w
  = match run env p w with
    | (inr a, w') => run env (f a) w'
    | (inl e, w') => (inl e, w')
    end.
Proof.
  revert w. induction p as [a | e | X e k IH]; intros w; cbn; [reflexivity ..|].
  apply IH.
Qed.

Lemma run_try_catch {A} (p : Prog A) (h : AxiosError -> Prog A) (w : World) :
  run env (try_catch p h) w
  = match run env p w with
    | (inr a, w') => (inr a, w')
    | (inl e, w') => run env (h e) w'
    end.
Proof.
  revert w. induction p as [a | e | X e k IH]; intros w; cbn; [reflexivity ..|].
  apply IH.
Qed.

Lemma run_finally {A} (p : Prog A) (q : Prog unit) (w : World) :
  run env (finally p q) w
  = match run env q (run env p w).2 with
    | (inr _, w') => ((run env p w).1, w')
    | (inl e, w') => (inl e, w')
    end.
Proof.
  revert w. induction p as [a | e | X e k IH]; intros w; cbn.
  - rewrite run_bind. now destruct (run env q w) as [[e | []] w'].
  - rewrite run_bind. now destruct (run env q w) as [[e' | []] w'].
  - apply IH.
Qed.

End RunFacts.

Section PredicateFacts.
Import Api App Browser.

Lemma allRequests_bind {A B} (P : Request -> Prop) (p : Prog A) (f : A -> Prog B) :
  allRequests P p -> (forall a, allRequests P (f a)) -> allRequests P (bind p f).
Proof.
  intros Hp Hf. induction p as [a | e | X e k IH]; cbn in *; [auto | exact I |].
  destruct Hp as [He Hk]. split; [exact He | intros x; apply IH, Hk].
Qed.

Lemma allRequests_try_catch {A} (P : Request -> Prop) (p : Prog A)
    (h : AxiosError -> Prog A) :
  allRequests P p -> (forall e, allRequests P (h e)) -> allRequests P (try_catch p h).
Proof.
  intros Hp Hh. induction p as [a | e | X e k IH]; cbn in *; [exact I | auto |].
  destruct Hp as [He Hk]. split; [exact He | intros x; apply IH, Hk].
Qed.

Lemma allRequests_finally {A} (P : Request -> Prop) (p : Prog A) (q : Prog unit) :
  allRequests P p -> allRequests P q -> allRequests P (finally p q).
Proof.
  intros Hp Hq. induction p as [a | e | X e k IH]; cbn in *.
  - apply allRequests_bind; [exact Hq | intros; exact I].
  - apply allRequests_bind; [exact Hq | intros; exact I].
  - destruct Hp as [He Hk]. split; [exact He | intros x; apply IH, Hk].
Qed.

Lemma allRequests_request (P : Request -> Prop) (r : Request) :
  P r -> allRequests P (request r).
Proof. intros H. cbn. split; [exact H | intros [e | d]; exact I]. Qed.

Lemma allRequests_perform {X} (P : Request -> Prop) (e : Eff X) :
  match e with Http r => P r | _ => True end -> allRequests P (perform e).
Proof. intros H. cbn. split; [exact H | intros x; exact I]. Qed.

Lemma allMessageUpdates_bind {A B} (P : (list Message.t -> list Message.t) -> Prop)
    (p : Prog A) (f : A -> Prog B) :
  allMessageUpdates P p -> (forall a, allMessageUpdates P (f a)) ->
  allMessageUpdates P (bind p f).
Proof.
  intros Hp Hf. induction p as [a | e | X e k IH]; cbn in *; [auto | exact I |].
  destruct Hp as [He Hk]. split; [exact He | intros x; apply IH, Hk].
Qed.

Lemma allMessageUpdates_try_catch {A} (P : (list Message.t -> list Message.t) -> Prop)
    (p : Prog A) (h : AxiosError -> Prog A) :
  allMessageUpdates P p -> (forall e, allMessageUpdates P (h e)) ->
  allMessageUpdates P (try_catch p h).
Proof.
  intros Hp Hh. induction p as [a | e | X e k IH]; cbn in *; [exact I | auto |].
  destruct Hp as [He Hk]. split; [exact He | intros x; apply IH, Hk].
Qed.

Lemma allMessageUpdates_finally {A} (P : (list Message.t -> list Message.t) -> Prop)
    (p : Prog A) (q : Prog unit) :
  allMessageUpdates P p -> allMessageUpdates P q -> allMessageUpdates P (finally p q).
Proof.
  intros Hp Hq. induction p as [a | e | X e k IH]; cbn in *.
  - apply allMessageUpdates_bind; [exact Hq | intros; exact I].
  - apply allMessageUpdates_bind; [exact Hq | intros; exact I].
  - destruct Hp as [He Hk]. split; [exact He | intros x; apply IH, Hk].
Qed.

End PredicateFacts.

(** Walks a handler, effect by effect and answer by answer. *)
Ltac walk_handler :=
  repeat (cbn;
          match goal with
          | |- True => exact I
          | |- _ /\ _ => split
          | |- forall _, _ => intro
          | |- exists _, _ = _ => eexists; reflexivity
          | |- context [match ?x with inl _ => _ | inr _ => _ end] => destruct x
          | |- context [match ?x with [] => _ | _ :: _ => _ end] => destruct x
          | |- context [if ?b then _ else _] => destruct b
          end).

(** ** App: sending a message *)

Section SendFacts.
Import Api App Browser Examples.

(** Every update [handleSendMessage] makes to the message list appends one
    message to the list it finds. *)
(** Enters the handler where a conversation is open. *)
Ltac enter_send Hc :=
  unfold handleSendMessage, start, loadConversations; rewrite Hc;
  match goal with
  | |- context [JSString.nonEmpty ?c] => destruct c; [contradiction |]
  end;
  cbn.

Lemma handleSendMessage_appends (st : State) (messageText : string) :
  allMessageUpdates
    (fun f => exists newMessage : Message.t, f = fun prev => (prev ++ [newMessage])%list)
    (handleSendMessage st messageText).
Proof.
  unfold handleSendMessage, start, loadConversations.
  destruct (conversationId st) as [cid |]; walk_handler.
Qed.


(** C4. A send is made when a conversation is open, that is when
    [conversationId] is neither [null] nor the empty string. A send that
    the server answers extends the message list by exactly two messages
    at its end, first the user's message and then the assistant's reply;
    every message that was there stays, at its index; and each update the
    handler makes has the form [prev => [...prev, newMessage]]. Two
    requests go out: the chat request, for the open conversation and the
    session of [App], and after it the reload of the conversation list
    that the handler starts, which leaves the messages as they are
    whatever it is answered. *)
Theorem send_appends_user_then_reply (env : Env) (w : World) (st : State)
    (messageText cid : string) (response : ChatResponse.t) :
  conversationId st = Some cid ->
  cid <> "" ->
  server env (length (requests w)) (PostChat messageText cid (sessionId st))
  = inr response ->
  let out := run env (handleSendMessage st messageText) w in
  let userMessage :=
    {| Message.id := uuid env (uuids w);
       Message.role := "user";
       Message.content := messageText;
       Message.created_at := clock env (ticks w);
       Message.sources := None;
       Message.confidence := None;
       Message.chart_id := None;
       Message.chart_data := JS.JUndefined |} in
  let m := ChatResponse.message response in
  let assistantMsg :=
    {| Message.id := Message.id m;
       Message.role := Message.role m;
       Message.content := Message.content m;
       Message.created_at := Message.created_at m;
       Message.sources :=
         Some (match ChatResponse.sources response with
               | Some l => l
               | None => default [] (Message.sources m)
               end);
       Message.confidence := Message.confidence m;
       Message.chart_id := Message.chart_id m;
       Message.chart_data :=
         JS.jsOr (ChatResponse.chart_data response) (Message.chart_data m) |} in
  out.1 = inr tt
  /\ messages (state out.2) = (messages (state w) ++ [userMessage; assistantMsg])%list
  /\ length (messages (state out.2)) = length (messages (state w)) + 2
  /\ (forall (i : nat) (old : Message.t),
        messages (state w) !! i = Some old -> messages (state out.2) !! i = Some old)
  /\ allMessageUpdates
       (fun f => exists newMessage : Message.t,
                   f = fun prev => (prev ++ [newMessage])%list)
       (handleSendMessage st messageText)
  /\ requests out.2
     = (requests w ++ [PostChat messageText cid (sessionId st);
                       GetSessionConversations (sessionId st)])%list
  /\ loading (state out.2) = false.
Proof.
  intros Hc Hne Hs out userMessage m assistantMsg.
  assert (Hmsgs : messages (state out.2)
                  = (messages (state w) ++ [userMessage; assistantMsg])%list).
  { subst out userMessage assistantMsg m. enter_send Hc. rewrite Hs. cbn.
    destruct (server env _ (GetSessionConversations _)); cbn;
      rewrite <- app_assoc; reflexivity. }
  split; [| split; [exact Hmsgs | split; [| split; [| split; [| split]]]]].
  - subst out. enter_send Hc. rewrite Hs. cbn.
    destruct (server env _ (GetSessionConversations _)); reflexivity.
  - rewrite Hmsgs, length_app. reflexivity.
  - intros i old Hold. rewrite Hmsgs. apply lookup_app_l_Some. exact Hold.
  - apply handleSendMessage_appends.
  - subst out. enter_send Hc. rewrite Hs. cbn.
    destruct (server env _ (GetSessionConversations _)); cbn;
      rewrite <- app_assoc; reflexivity.
  - subst out. enter_send Hc. rewrite Hs. cbn.
    destruct (server env _ (GetSessionConversations _)); reflexivity.
Qed.

Lemma send_appends_user_then_reply_witness :
  let out := run answering (handleSendMessage chatting "Any news?") (freshWorld chatting ∅) in
  out.1 = inr tt
  /\ Message.role <$> messages (state out.2) = ["assistant"; "user"; "assistant"]
  /\ Message.content <$> messages (state out.2)
     = ["Here is the breakdown."; "Any news?"; "Sales rose."].
Proof.
  intros out.
  assert (Hopen : "conv-1" <> "") by discriminate.
  destruct (send_appends_user_then_reply answering (freshWorld chatting ∅) chatting
              "Any news?" "conv-1" (someReply (PostChat "Any news?" "conv-1"
                                                (sessionId chatting)))
              eq_refl Hopen eq_refl) as (Hret & Hmsgs & _).
  split; [exact Hret |]. fold out in Hmsgs. rewrite Hmsgs. split; reflexivity.
Defined.




End SendFacts.

(** ** App: the session identifier *)

Section SessionFacts.
Import Api App Browser Examples.

Lemma carries_refl_cases (sid : string) (r : Request) :
  sessionOf r = Some sid \/ sessionOf r = None -> carries sid r.
Proof. unfold carries. intros [H | H] s Hs; congruence. Qed.

(** A stored identifier that is not the empty string is returned, and
    nothing is generated or written. *)
Lemma getSessionId_stored (env : Env) (w : World) (s : string) :
  localStorage w !! "rag_session_id" = Some s -> s <> "" ->
  run env getSessionId w = (inr s, w).
Proof.
  intros Hs Hne. unfold getSessionId. cbn. rewrite Hs.
  destruct s; [contradiction | reflexivity].
Qed.

(** With nothing stored, or the empty string, a fresh identifier is
    generated, stored and returned. *)
Lemma getSessionId_fresh (env : Env) (w : World) :
  localStorage w !! "rag_session_id" = None
  \/ localStorage w !! "rag_session_id" = Some "" ->
  (run env getSessionId w).1 = inr (uuid env (uuids w))
  /\ localStorage (run env getSessionId w).2
     = <["rag_session_id" := uuid env (uuids w)]> (localStorage w)
  /\ uuids (run env getSessionId w).2 = S (uuids w).
Proof.
  intros [H | H]; unfold getSessionId; cbn; rewrite H; cbn; auto.
Qed.

Lemma getSessionId_twice (env : Env) (w : World) :
  uuid env (uuids w) <> "" ->
  (run env getSessionId (run env getSessionId w).2).1 = (run env getSessionId w).1.
Proof.
  intros Hfresh.
  destruct (localStorage w !! "rag_session_id") as [s |] eqn:Hs.
  - destruct (decide (s = "")) as [-> | Hne].
    + destruct (getSessionId_fresh env w (or_intror Hs)) as (Hid & Hstore & _).
      rewrite Hid.
      rewrite (getSessionId_stored env _ (uuid env (uuids w))); [reflexivity | | exact Hfresh].
      rewrite Hstore. apply lookup_insert_eq.
    + rewrite (getSessionId_stored env w s Hs Hne). cbn [fst snd].
      now rewrite (getSessionId_stored env w s Hs Hne).
  - destruct (getSessionId_fresh env w (or_introl Hs)) as (Hid & Hstore & _).
    rewrite Hid.
    rewrite (getSessionId_stored env _ (uuid env (uuids w))); [reflexivity | | exact Hfresh].
    rewrite Hstore. apply lookup_insert_eq.
Qed.

(** No setter touches the session identifier. *)
Lemma sessionId_applyUpdate (u : Update) (st : State) :
  sessionId (applyUpdate u st) = sessionId st.
Proof. destruct u; reflexivity. Qed.

(** So no program changes it, whatever it is answered. *)
Lemma run_preserves_sessionId (env : Env) {A} (p : Prog A) (w : World) :
  sessionId (state (run env p w).2) = sessionId (state w).
Proof.
  revert w. induction p as [a | e | X e k IH]; intros w; cbn; [reflexivity ..|].
  rewrite IH. destruct e; cbn; try reflexivity. apply sessionId_applyUpdate.
Qed.

(** [App] mounts with the identifier [getSessionId] returns. *)
Lemma mount_sessionId (env : Env) (w : World) :
  exists sid : string,
    (run env getSessionId w).1 = inr sid
    /\ run env mount w = (inr (initialState sid), (run env getSessionId w).2).
Proof.
  unfold mount. cbn. unfold getSessionId. cbn.
  destruct (localStorage w !! "rag_session_id") as [[| c s] |]; cbn; eauto.
Qed.

(** Each program of [App], for the state [st] it closes over, makes its
    session-scoped requests for [sessionId st]. *)
Lemma handlers_carry_sessionId (st : State) :
  let P := carries (sessionId st) in
  (forall file, allRequests P (handleFileUpload st file))
  /\ (forall messageText, allRequests P (handleSendMessage st messageText))
  /\ allRequests P (loadDocuments st)
  /\ allRequests P (loadConversations st)
  /\ allRequests P (init st)
  /\ allRequests P (handleNewConversation st)
  /\ (forall convId, allRequests P (handleSelectConversation st convId))
  /\ (forall convId, allRequests P (handleDeleteConversation st convId))
  /\ (forall id, allRequests P (handleDocumentDeleted st id))
  /\ allRequests P (toggleSidebar st)
  /\ allRequests P mountEffect
  /\ (forall t, allRequests P (taskProg st t)).
Proof.
  intros P.
  assert (Hc : forall r, sessionOf r = Some (sessionId st) \/ sessionOf r = None -> P r)
    by (intros r; apply carries_refl_cases).
  assert (HloadD : allRequests P (loadDocuments st))
    by (unfold loadDocuments; walk_handler; apply Hc; cbn; auto).
  assert (HloadC : allRequests P (loadConversations st))
    by (unfold loadConversations; walk_handler; apply Hc; cbn; auto).
  assert (Hinit : allRequests P (init st))
    by (unfold init, loadDocuments, loadConversations; walk_handler; apply Hc; cbn; auto).
  assert (Hnew : allRequests P (handleNewConversation st))
    by (unfold handleNewConversation, loadConversations; walk_handler;
        apply Hc; cbn; auto).
  assert (Hsel : forall convId, allRequests P (handleSelectConversation st convId))
    by (intros convId; unfold handleSelectConversation; walk_handler;
        apply Hc; cbn; auto).
  repeat match goal with |- _ /\ _ => split end; try assumption.
  - intros file. unfold handleFileUpload. walk_handler; apply Hc; cbn; auto.
  - intros messageText. unfold handleSendMessage, start, loadConversations.
    destruct (conversationId st); walk_handler; apply Hc; cbn; auto.
  - intros convId.
    unfold handleDeleteConversation, start, handleSelectConversation,
      handleNewConversation, loadConversations.
    walk_handler; apply Hc; cbn; auto.
  - intros id. unfold handleDocumentDeleted. walk_handler.
  - unfold toggleSidebar. walk_handler.
  - unfold mountEffect. walk_handler.
  - intros [| | | convId |]; cbn [taskProg]; auto.
Qed.

(** The amended C6. The client works under one session identifier:
    [getSessionId] returns the identifier stored in [localStorage] when one
    is stored and is not the empty string, leaving the store as it is, and
    otherwise (nothing stored, or the empty string) generates a UUID,
    stores it and returns it; so, [uuidv4] never giving the empty string,
    two successive calls return the same value. [App] takes its
    [sessionId] from one call at mount, no setter changes it, and every
    upload, chat, document-list, conversation-list and conversation-create
    request of every handler carries it. *)
Theorem session_id_stable (env : Env) (w : World) (st : State) :
  (forall s : string,
     localStorage w !! "rag_session_id" = Some s -> s <> "" ->
     run env getSessionId w = (inr s, w))
  /\ (localStorage w !! "rag_session_id" = None
      \/ localStorage w !! "rag_session_id" = Some "" ->
      (run env getSessionId w).1 = inr (uuid env (uuids w))
      /\ localStorage (run env getSessionId w).2
         = <["rag_session_id" := uuid env (uuids w)]> (localStorage w))
  /\ (uuid env (uuids w) <> "" ->
      (run env getSessionId (run env getSessionId w).2).1
      = (run env getSessionId w).1)
  /\ (exists sid : string,
        (run env getSessionId w).1 = inr sid
        /\ (run env mount w).1 = inr (initialState sid)
        /\ sessionId (initialState sid) = sid)
  /\ (forall (A : Type) (p : Prog A),
        sessionId (state (run env p w).2) = sessionId (state w))
  /\ (forall file, allRequests (carries (sessionId st)) (handleFileUpload st file))
  /\ (forall messageText,
        allRequests (carries (sessionId st)) (handleSendMessage st messageText))
  /\ (forall t, allRequests (carries (sessionId st)) (taskProg st t))
  /\ (forall convId,
        allRequests (carries (sessionId st)) (handleDeleteConversation st convId))
  /\ allRequests (carries (sessionId st)) (toggleSidebar st)
  /\ (forall file sid, sessionOf (PostUpload file sid) = Some sid)
  /\ (forall text cid sid, sessionOf (PostChat text cid sid) = Some sid)
  /\ (forall sid, sessionOf (GetDocuments sid) = Some sid)
  /\ (forall sid, sessionOf (GetSessionConversations sid) = Some sid)
  /\ (forall sid, sessionOf (PostConversations sid) = Some sid).
Proof.
  destruct (handlers_carry_sessionId st)
    as (Hup & Hsend & _ & _ & _ & _ & _ & Hdel & _ & Htog & _ & Htask).
  split; [intros s; apply getSessionId_stored |].
  split; [intros H; destruct (getSessionId_fresh env w H) as (? & ? & _); auto |].
  split; [apply getSessionId_twice |].
  split.
  { destruct (mount_sessionId env w) as (sid & Hid & Hmount).
    exists sid. rewrite Hmount. auto. }
  split; [intros A p; apply run_preserves_sessionId |].
  repeat match goal with |- _ /\ _ => split end; auto.
Qed.

Lemma session_id_stable_witness :
  let stored := freshWorld chatting {[ "rag_session_id" := "5f0c2a9e-1111-4222-8333-444455556666" ]} in
  let empty := freshWorld chatting ∅ in
  run answering getSessionId stored
  = (inr "5f0c2a9e-1111-4222-8333-444455556666", stored)
  /\ (run answering getSessionId (run answering getSessionId empty).2).1
     = (run answering getSessionId empty).1.
Proof.
  intros stored empty. split.
  - destruct (session_id_stable answering stored chatting) as (Hstored & _).
    apply Hstored; [reflexivity | discriminate].
  - destruct (session_id_stable answering empty chatting) as (_ & _ & Htwice & _).
    apply Htwice. discriminate.
Defined.

(** C6 as stated fails on a store that holds the empty string under the
    key: the stored value is not returned, a fresh identifier is. *)
Lemma getSessionId_empty_stored :
  let w := freshWorld chatting {[ "rag_session_id" := "" ]} in
  localStorage w !! "rag_session_id" = Some ""
  /\ (run answering getSessionId w).1 = inr "00000000-0000-4000-8000-000000000000"
  /\ ~ (forall s : string,
         localStorage w !! "rag_session_id" = Some s ->
         (run answering getSessionId w).1 = inr s).
Proof.
  split; [reflexivity |]. split; [reflexivity |].
  intros H. specialize (H "" eq_refl). discriminate H.
Qed.

End SessionFacts.

(** ** MessageBubble: scores of zero *)

Section ScoreFacts.
Import JS MessageBubble Examples.

(** The confidence chip is shown exactly for a confidence that is defined
    and greater than zero. *)
Lemma confidence_chip_iff (message : Message.t) :
  truthy (showConfidence message) = true
  <-> exists c : float,
        Message.confidence message = Some c /\ PrimFloat.ltb 0%float c = true.
Proof.
  unfold showConfidence. destruct (Message.confidence message) as [c |]; cbn.
  - split; [eauto | intros (c' & [= <-] & H); exact H].
  - split; [discriminate | intros (c' & [=] & _)].
Qed.

(** A confidence of zero, of either sign, is shown like a missing one: no
    chip, and the colour and label helpers agree. *)
Lemma zero_confidence_as_absent (message : Message.t) :
  Message.confidence message = Some 0%float
  \/ Message.confidence message = Some (-0)%float ->
  showConfidence message = JBool false
  /\ getConfidenceColor (Message.confidence message) = getConfidenceColor None
  /\ getConfidenceLabel (Message.confidence message) = getConfidenceLabel None.
Proof.
  unfold showConfidence. intros [-> | ->]; repeat split; reflexivity.
Qed.

(** The "% relevant" label is an element exactly for a truthy score. *)
Lemma relevance_label_iff (idx : nat) (source : Source.t) :
  (exists label : string, relevance (sourceCard idx source) = Element label)
  <-> exists r : float,
        Source.relevance_score source = Some r /\ numberTruthy r = true.
Proof.
  unfold sourceCard. cbn. destruct (Source.relevance_score source) as [r |].
  - unfold jsxAnd. cbn. destruct (numberTruthy r) eqn:Hr.
    + split; eauto.
    + split; [intros [label [=]] | intros (r' & [= <-] & H); congruence].
  - split; [intros [label [=]] | intros (r' & [=] & _)].
Qed.

(** A falsy score is not skipped: the number itself is the child React is
    given, and React writes a number out. *)
Lemma relevance_of_falsy (idx : nat) (source : Source.t) (r : float) :
  Source.relevance_score source = Some r -> numberTruthy r = false ->
  relevance (sourceCard idx source) = Value (JNumber r)
  /\ rendersNothing (relevance (sourceCard idx source)) = false.
Proof.
  intros Hr Hfalsy. unfold sourceCard. cbn. rewrite Hr.
  unfold jsxAnd. cbn. rewrite Hfalsy. auto.
Qed.

(** C9, at a source whose [relevance_score] is [0]: the card does not look
    like the card of a source without score. Where the latter has no child
    at all, the former has the number [0] as a child, which React renders
    as the text ["0"] beside the file name. The confidence chip of the same
    bubble is guarded by a comparison and has no such child. *)
Theorem zero_relevance_renders_zero :
  MessageBubble (answerCiting (Some 0%float)) true
  = Ok {| isUser := false;
          content := "Sales rose.";
          chart := Value JUndefined;
          metadata :=
            Element
              {| time := "2024-05-01T10:00:05.000Z";
                 confidenceChip :=
                   Element {| confidenceLabel := "82% confident";
                              confidenceColor := "success" |};
                 sourcesChip :=
                   Element {| expanded := true; sourcesLabel := "1 source" |} |};
          userTime := Value (JBool false);
          sourcesPanel :=
            Element
              {| panelOpen := true;
                 cards :=
                   [ {| cardTitle := "report.pdf";
                        relevance := Value (JNumber 0%float);
                        excerpt := Some "Sales rose in the second quarter.";
                        ellipsis := "" |} ] |} |}
  /\ rendersNothing (relevance (sourceCard 0 (sourceScored (Some 0%float)))) = false
  /\ relevance (sourceCard 0 (sourceScored None)) = Value JUndefined
  /\ rendersNothing (relevance (sourceCard 0 (sourceScored None))) = true
  /\ MessageBubble (answerCiting (Some 0%float)) true
     <> MessageBubble (answerCiting None) true.
Proof.
  split; [vm_compute; reflexivity |].
  split; [reflexivity |]. split; [reflexivity |]. split; [reflexivity |].
  intros H. vm_compute in H. discriminate H.
Qed.

End ScoreFacts.

(** ** The components on sample inputs *)

Section Samples.
Import JS Examples.

Example trim_sample :
  JSString.trim (String (ascii_of_nat 9) "  What changed in Q2?  ") = "What changed in Q2?".
Proof. reflexivity. Qed.

Example handleSend_sample :
  ChatInterface.handleSend "  What changed in Q2?  " false
  = [ChatInterface.onSendMessage "What changed in Q2?"; ChatInterface.setInput ""]
  /\ ChatInterface.handleSend "   " false = []
  /\ ChatInterface.handleSend "What changed in Q2?" true = [].
Proof. repeat split; reflexivity. Qed.

Example getConfidenceColor_sample :
  MessageBubble.getConfidenceColor (Some 0.7%float) = "success"
  /\ MessageBubble.getConfidenceColor (Some 0.69%float) = "warning"
  /\ MessageBubble.getConfidenceColor (Some 0.4%float) = "warning"
  /\ MessageBubble.getConfidenceColor (Some 0.39%float) = "error"
  /\ MessageBubble.getConfidenceColor (Some 0%float) = "default"
  /\ MessageBubble.getConfidenceColor None = "default".
Proof. repeat split; reflexivity. Qed.

Example getConfidenceLabel_sample :
  MessageBubble.getConfidenceLabel (Some 0.825%float) = "83% confident"
  /\ MessageBubble.getConfidenceLabel (Some 0.285%float) = "28% confident"
  /\ MessageBubble.getConfidenceLabel (Some 1%float) = "100% confident"
  /\ MessageBubble.getConfidenceLabel (Some 0%float) = "".
Proof. repeat split; vm_compute; reflexivity. Qed.

Example filteredConversations_sample :
  let conv (id title : string) :=
    {| Conversation.id := id; Conversation.title := title;
       Conversation.created_at := "2024-05-01T10:00:00.000Z";
       Conversation.updated_at := "2024-05-01T10:00:00.000Z" |} in
  ConversationSidebar.filteredConversations "SALES"
    [conv "c1" "Quarterly Sales"; conv "c2" "Hiring plan"; conv "c3" "sales forecast"]
  = [conv "c1" "Quarterly Sales"; conv "c3" "sales forecast"].
Proof. reflexivity. Qed.

Example line_chart_sample :
  ChartVisualizer.ChartVisualizer (salesChart (JString "line")) (JString "Sales")
    (JString "line")
  = Ok (Some {| ChartVisualizer.heading := Element (JString "Sales");
                ChartVisualizer.chart :=
                  ChartVisualizer.LineChart (JArray salesRows)
                    [ {| ChartVisualizer.dataKey := "sales";
                         ChartVisualizer.color := "#0088FE" |};
                      {| ChartVisualizer.dataKey := "costs";
                         ChartVisualizer.color := "#00C49F" |} ] |}).
Proof. reflexivity. Qed.

End Samples.

(* ===================================================================== *)
(** * Part III: further properties of the components                      *)
(* ===================================================================== *)

(** ** MessageBubble: chips, cards and time stamps *)

Section BubbleDetails.
Import JS MessageBubble.

(** A number greater than zero is truthy. *)
Lemma positive_truthy (c : float) :
  PrimFloat.ltb 0%float c = true -> numberTruthy c = true.
Proof.
  unfold numberTruthy, PrimFloat.is_nan.
  rewrite FloatAxioms.ltb_spec, !FloatAxioms.eqb_spec.
  change (Prim2SF 0%float) with (S754_zero false).
  destruct (Prim2SF c) as [s | s | | s m e]; cbn; try discriminate.
  all: destruct s; cbn; try discriminate; intros _.
  all: unfold SFeqb, SFcompare.
  all: rewrite ?Z.compare_refl, ?Pos.compare_cont_refl; reflexivity.
Qed.

(** X2. A confidence chip that is shown is never blank: its label is the
    rounded percentage followed by "% confident", and its colour is one
    of the three bands, not the default. *)
Theorem confidence_chip_labelled (message : Message.t) :
  truthy (showConfidence message) = true ->
  exists c : float,
    Message.confidence message = Some c
    /\ getConfidenceLabel (Message.confidence message)
       = roundedText (PrimFloat.mul c 100%float) ++ "% confident"
    /\ getConfidenceLabel (Message.confidence message) <> ""
    /\ (getConfidenceColor (Message.confidence message) = "success"
        \/ getConfidenceColor (Message.confidence message) = "warning"
        \/ getConfidenceColor (Message.confidence message) = "error").
Proof.
  unfold showConfidence. destruct (Message.confidence message) as [c |]; cbn;
    [| discriminate].
  intros Hpos. apply positive_truthy in Hpos. exists c.
  unfold getConfidenceLabel, getConfidenceColor. rewrite Hpos. cbn.
  split; [reflexivity |]. split; [reflexivity |]. split.
  - destruct (roundedText (PrimFloat.mul c 100)); discriminate.
  - destruct (PrimFloat.leb 0.7 c); [auto |].
    destruct (PrimFloat.leb 0.4 c); auto.
Qed.

Lemma confidence_chip_labelled_witness :
  exists c : float,
    Message.confidence (Examples.answerCiting None) = Some c
    /\ getConfidenceLabel (Message.confidence (Examples.answerCiting None))
       = roundedText (PrimFloat.mul c 100%float) ++ "% confident"
    /\ getConfidenceLabel (Message.confidence (Examples.answerCiting None)) <> ""
    /\ (getConfidenceColor (Message.confidence (Examples.answerCiting None)) = "success"
        \/ getConfidenceColor (Message.confidence (Examples.answerCiting None)) = "warning"
        \/ getConfidenceColor (Message.confidence (Examples.answerCiting None)) = "error").
Proof.
  apply (confidence_chip_labelled (Examples.answerCiting None)). reflexivity.
Defined.

Lemma substring0_spec (n : nat) (s : string) :
  exists tail : string,
    s = JSString.substring0 n s ++ tail
    /\ String.length (JSString.substring0 n s) = Nat.min n (String.length s).
Proof.
  unfold JSString.substring0. revert s.
  induction n as [| n IH]; intros s.
  - exists s. destruct s; cbn; auto.
  - destruct s as [| c s]; cbn.
    + exists "". auto.
    + destruct (IH s) as (tail & Htail & Hlen). exists tail.
      split; [congruence | now rewrite Hlen].
Qed.

Lemma substring0_short (n : nat) (s : string) :
  String.length s <= n -> JSString.substring0 n s = s.
Proof.
  unfold JSString.substring0. revert s.
  induction n as [| n IH]; intros s Hlen.
  - destruct s; cbn in *; [reflexivity | lia].
  - destruct s as [| c s]; cbn in *; [reflexivity |].
    rewrite IH; [reflexivity | lia].
Qed.

(** X3. The excerpt of a source card is the first 200 characters of the
    content: a prefix of it, of length [min 200 (length content)], the
    whole content when that has at most 200 characters; the three dots
    follow exactly when something was cut off. A source without content
    has neither. *)
Theorem source_excerpt_bounds (idx : nat) (source : Source.t) :
  match Source.content source with
  | Some c =>
      exists e tail : string,
        excerpt (sourceCard idx source) = Some e
        /\ c = e ++ tail
        /\ String.length e = Nat.min 200 (String.length c)
        /\ (String.length c <= 200 -> e = c)
        /\ (ellipsis (sourceCard idx source) = "..." <-> 200 < String.length c)
        /\ (ellipsis (sourceCard idx source) = "" <-> String.length c <= 200)
  | None =>
      excerpt (sourceCard idx source) = None /\ ellipsis (sourceCard idx source) = ""
  end.
Proof.
  unfold sourceCard. cbn [excerpt ellipsis].
  destruct (Source.content source) as [c |]; [| auto].
  destruct (substring0_spec 200 c) as (tail & Htail & Hlen).
  exists (JSString.substring0 200 c), tail.
  split; [reflexivity |]. split; [exact Htail |]. split; [exact Hlen |].
  split; [apply substring0_short |].
  destruct (Nat.ltb_spec 200 (String.length c)) as [Hlong | Hshort].
  - assert (Hne : JSString.nonEmpty c = true) by (destruct c; [cbn in Hlong; lia | reflexivity]).
    rewrite Hne. cbn [andb]. split; split; intros H; try reflexivity; try assumption;
      try discriminate H; lia.
  - rewrite andb_false_r. split; split; intros H; try reflexivity; try assumption;
      try discriminate H; lia.
Qed.

Lemma imap_lookup_sourceCard (l : list Source.t) (i : nat) (source : Source.t) :
  l !! i = Some source -> imap sourceCard l !! i = Some (sourceCard i source).
Proof. intros H. rewrite list_lookup_imap, H. reflexivity. Qed.

(** X4. An answer with sources shows them all: the panel holds one card per
    source, in the order of the sources, the card at index [i] titled by
    the file name of its source or, when that is empty, "Source i+1"; the
    chip counts them, "1 source" or "n sources"; and chip and panel carry
    the same open state. Without sources, or for a user message, there is
    neither chip nor panel. *)
Theorem sources_panel_cards (message : Message.t) (sourcesOpen : bool) (v : View) :
  MessageBubble message sourcesOpen = Ok v ->
  match Message.sources message with
  | Some (first :: others) =>
      Message.role message <> "user" ->
      let l := first :: others in
      exists (row : MetaRow) (panel : SourcesPanel),
        metadata v = Element row
        /\ sourcesChip row
           = Element {| expanded := sourcesOpen;
                        sourcesLabel :=
                          pretty (length l)
                          ++ (if others is [] then " source" else " sources") |}
        /\ sourcesPanel v = Element panel
        /\ panelOpen panel = sourcesOpen
        /\ length (cards panel) = length l
        /\ forall (i : nat) (source : Source.t),
             l !! i = Some source ->
             exists card : SourceCard,
               cards panel !! i = Some card
               /\ card = sourceCard i source
               /\ cardTitle card
                  = (if JSString.nonEmpty (Source.filename source)
                     then Source.filename source
                     else "Source " ++ pretty (i + 1))
  | _ =>
      rendersNothing (sourcesPanel v) = true
      /\ forall row : MetaRow,
           metadata v = Element row -> rendersNothing (sourcesChip row) = true
  end.
Proof.
  unfold MessageBubble. intros H.
  assert (Hv : exists chartChild,
             v = {| isUser := String.eqb (Message.role message) "user";
                    content := Message.content message;
                    chart := chartChild;
                    metadata :=
                      jsxAnd (JBool (negb (String.eqb (Message.role message) "user")))
                        {| time := Message.created_at message;
                           confidenceChip :=
                             jsxAnd (showConfidence message)
                               {| confidenceLabel :=
                                    getConfidenceLabel (Message.confidence message);
                                  confidenceColor :=
                                    getConfidenceColor (Message.confidence message) |};
                           sourcesChip :=
                             jsxAnd (hasSources message)
                               {| expanded := sourcesOpen;
                                  sourcesLabel :=
                                    pretty (length (default [] (Message.sources message)))
                                    ++ " source"
                                    ++ (if Nat.ltb 1 (length (default []
                                                        (Message.sources message)))
                                        then "s" else "") |} |};
                    userTime :=
                      jsxAnd (JBool (String.eqb (Message.role message) "user"))
                        (Message.created_at message);
                    sourcesPanel :=
                      jsxAnd (hasSources message)
                        {| panelOpen := sourcesOpen;
                           cards := imap sourceCard
                                      (default [] (Message.sources message)) |} |}).
  { destruct (truthy (hasChart message)).
    - destruct (chartBox (Message.chart_data message)); [| discriminate].
      cbn in H. injection H as <-. eauto.
    - cbn in H. injection H as <-. eauto. }
  clear H. destruct Hv as (chartChild & ->). cbn [sourcesPanel metadata].
  unfold hasSources.
  destruct (Message.sources message) as [[| first others] |] eqn:Hsrc.
  - destruct (String.eqb (Message.role message) "user"); cbn;
      (split; [reflexivity |]); intros row Hrow; try discriminate;
      injection Hrow as <-; reflexivity.
  - intros Hrole. apply String.eqb_neq in Hrole. rewrite Hrole. cbn.
    eexists _, _. split; [reflexivity |]. cbn [sourcesChip].
    split.
    { destruct others; reflexivity. }
    split; [reflexivity |]. cbn [panelOpen cards].
    split; [reflexivity |].
    split; [apply (length_imap sourceCard (first :: others)) |].
    intros i source Hi. exists (sourceCard i source).
    split; [apply (imap_lookup_sourceCard (first :: others) i source Hi) |].
    split; reflexivity.
  - destruct (String.eqb (Message.role message) "user"); cbn;
      (split; [reflexivity |]); intros row Hrow; try discriminate;
      injection Hrow as <-; reflexivity.
Qed.

Lemma sources_panel_cards_witness :
  exists (row : MetaRow) (panel : SourcesPanel),
    sourcesChip row = Element {| expanded := true; sourcesLabel := "1 source" |}
    /\ length (cards panel) = 1.
Proof.
  destruct (sources_panel_cards (Examples.answerCiting None) true _ eq_refl
              ltac:(discriminate))
    as (row & panel & _ & Hchip & _ & _ & Hlen & _).
  exists row, panel. split; [exact Hchip | exact Hlen].
Defined.

(** X5. Every bubble shows its time once: an assistant bubble in the metadata
    row, a user bubble in the caption under it, never both and never
    neither. *)
Theorem bubble_time_once (message : Message.t) (sourcesOpen : bool) (v : View) :
  MessageBubble message sourcesOpen = Ok v ->
  (Message.role message <> "user"
   /\ userTime v = Value (JBool false)
   /\ exists row : MetaRow,
        metadata v = Element row /\ time row = Message.created_at message)
  \/ (Message.role message = "user"
      /\ metadata v = Value (JBool false)
      /\ userTime v = Element (Message.created_at message)).
Proof.
  unfold MessageBubble. intros H.
  destruct (String.eqb_spec (Message.role message) "user") as [Huser | Hother].
  - right. split; [exact Huser |].
    destruct (truthy (hasChart message));
      [destruct (chartBox (Message.chart_data message)); [| discriminate] |];
      cbn in H; injection H as <-; cbn; auto.
  - left. split; [exact Hother |].
    destruct (truthy (hasChart message));
      [destruct (chartBox (Message.chart_data message)); [| discriminate] |];
      cbn in H; injection H as <-; cbn; eauto.
Qed.

Lemma bubble_time_once_witness :
  exists v : View,
    MessageBubble Examples.loadedUserMessage false = Ok v
    /\ userTime v = Element "2024-05-01T10:00:00.000Z".
Proof.
  eexists. split; [reflexivity |].
  destruct (bubble_time_once Examples.loadedUserMessage false _ eq_refl)
    as [(Hrole & _) | (_ & _ & Htime)]; [| exact Htime].
  exfalso. apply Hrole. reflexivity.
Defined.

End BubbleDetails.

(** ** ChartVisualizer: colours, headings and failures *)

Section ChartDetails.
Import JS ChartVisualizer.

Lemma colorAt_mod (index : nat) : colorAt index = colorAt (index mod 6).
Proof.
  unfold colorAt. cbn [length COLORS]. now rewrite Nat.Div0.mod_mod.
Qed.

Lemma colorAt_small_inj (i j : nat) :
  i < 6 -> j < 6 -> colorAt i = colorAt j -> i = j.
Proof.
  intros Hi Hj.
  do 6 (destruct i as [| i]; [do 6 (destruct j as [| j]; [vm_compute; congruence |]); lia |]).
  lia.
Qed.

(** X6. The series colours run through the six [COLORS] and start over: every
    index gets one of the six colours, never [undefined]; two indices get
    the same colour exactly when they differ by a multiple of six; and the
    series at index [i] of a line or bar chart has the key at index [i]
    and colour [COLORS[i % 6]]. *)
Theorem series_colours_cycle (dataKeys : list string) (i j : nat) :
  colorAt i ∈ COLORS
  /\ COLORS !! (i mod 6) = Some (colorAt i)
  /\ (colorAt i = colorAt j <-> i mod 6 = j mod 6)
  /\ colorAt (i + 6) = colorAt i
  /\ length (seriesOf dataKeys) = length dataKeys
  /\ seriesOf dataKeys !! i
     = (fun key => {| dataKey := key; color := colorAt i |}) <$> dataKeys !! i.
Proof.
  assert (Hbound : i mod 6 < 6) by (apply Nat.mod_upper_bound; lia).
  assert (Hlookup : COLORS !! (i mod 6) = Some (colorAt i)).
  { unfold colorAt. cbn [length COLORS].
    destruct (COLORS !! (i mod 6)) as [c |] eqn:Hc; [reflexivity |].
    apply lookup_ge_None in Hc. cbn in Hc. lia. }
  split; [apply list_elem_of_lookup; eauto |].
  split; [exact Hlookup |].
  split.
  { split.
    - intros Heq. rewrite (colorAt_mod i), (colorAt_mod j) in Heq.
      apply colorAt_small_inj in Heq; [exact Heq | exact Hbound |].
      apply Nat.mod_upper_bound. lia.
    - intros Heq. rewrite (colorAt_mod i), (colorAt_mod j), Heq. reflexivity. }
  split.
  { rewrite (colorAt_mod (i + 6)), (colorAt_mod i).
    replace (i + 6) with (i + 1 * 6) by lia. now rewrite Nat.Div0.mod_add. }
  split; [apply length_imap |].
  unfold seriesOf. apply list_lookup_imap.
Qed.

(** X7. With an array as [data], the component throws in exactly one case: a
    first row that is [null] (or [undefined]), whose keys cannot be read.
    An empty array and an array starting with any other value render. *)
Theorem chart_of_array_throws_iff (data title type : JSValue) (rows : list JSValue) :
  get data "data" = Ok (JArray rows) ->
  ChartVisualizer data title type = TypeError
  <-> exists rest : list JSValue, rows = JNull :: rest \/ rows = JUndefined :: rest.
Proof.
  intros Hdata.
  assert (Ht : truthy data = true) by (destruct data; try discriminate; reflexivity).
  destruct rows as [| row rest].
  - rewrite (ChartVisualizer_null data title type) by tauto.
    split; [discriminate | intros (rest & [H | H]); discriminate].
  - destruct (Object_keys row) as [rowKeys |] eqn:Hkeys.
    + rewrite (ChartVisualizer_rows _ _ _ _ _ _ Hdata Hkeys).
      assert (Hrender : exists c,
                renderChart (match type with JUndefined => JString "bar" | _ => type end)
                  (JArray (row :: rest))
                  (List.filter (fun key => negb (String.eqb key "name")) rowKeys)
                = Ok c).
      { unfold renderChart.
        destruct (isString _ "line"); [eauto |].
        destruct (isString _ "pie"); cbn; eauto. }
      destruct Hrender as [c ->]. cbn.
      split; [discriminate |].
      intros (rest' & [H | H]); injection H as -> _; discriminate.
    + assert (Hrow : row = JNull \/ row = JUndefined)
        by (destruct row; try discriminate; auto).
      split; [intros _; exists rest; destruct Hrow as [-> | ->]; auto |].
      intros _. unfold ChartVisualizer. rewrite Ht, Hdata. cbn.
      unfold body, dataKeysOf. cbn. now rewrite Hkeys.
Qed.

Lemma chart_of_array_throws_iff_witness :
  ChartVisualizer (JObject [("data", JArray [JNull])]) JUndefined JUndefined = TypeError.
Proof.
  apply (chart_of_array_throws_iff (JObject [("data", JArray [JNull])])
           JUndefined JUndefined [JNull] eq_refl).
  exists []. left. reflexivity.
Defined.

(** X8. A [data] that is no array at all, but [true], a number or an object
    without the property ["0"], is not caught by the guard either: its
    first row is [undefined] and the component throws, unless an object
    says its [length] is [0]. *)
Theorem chart_of_non_array_throws (data title type chartData : JSValue) :
  get data "data" = Ok chartData ->
  truthy chartData = true ->
  lengthIsZero chartData = Ok false ->
  first chartData = Ok JUndefined ->
  ChartVisualizer data title type = TypeError.
Proof.
  intros Hdata Htruthy Hlen Hfirst.
  assert (Ht : truthy data = true).
  { destruct data; cbn in Hdata; try discriminate Hdata;
      try (injection Hdata as <-; discriminate Htruthy); reflexivity. }
  unfold ChartVisualizer. rewrite Ht, Hdata. cbn. rewrite Htruthy, Hlen. cbn.
  unfold body, dataKeysOf. now rewrite Hfirst.
Qed.

Lemma chart_of_non_array_throws_witness :
  ChartVisualizer (JObject [("type", JString "bar"); ("data", JObject [])])
    (JString "Sales") (JString "bar") = TypeError
  /\ ChartVisualizer (JObject [("data", JBool true)]) JUndefined JUndefined = TypeError.
Proof.
  split.
  - apply (chart_of_non_array_throws _ _ _ (JObject [])); reflexivity.
  - apply (chart_of_non_array_throws _ _ _ (JBool true)); reflexivity.
Defined.

End ChartDetails.

Section ChartInBubble.
Import JS MessageBubble.

(** X9. A chart drawn inside a bubble always has a heading: the payload's own
    [title] when that is truthy, and "Data Visualization" otherwise. *)
Theorem bubble_chart_heading (chart_data : JSValue) (paper : ChartVisualizer.Paper) :
  chartBox chart_data = Ok (Some paper) ->
  exists title : JSValue,
    get chart_data "title" = Ok title
    /\ ChartVisualizer.heading paper
       = Element (if truthy title then title else JString "Data Visualization").
Proof.
  unfold chartBox. intros H.
  destruct (get chart_data "title") as [title |] eqn:Htitle; [| discriminate].
  destruct (get chart_data "type") as [type |] eqn:Htype; [| discriminate].
  cbn in H. exists title. split; [reflexivity |].
  assert (Htruthy : truthy (jsOr title (JString "Data Visualization")) = true)
    by (unfold jsOr; destruct (truthy title) eqn:Ht; [exact Ht | reflexivity]).
  unfold ChartVisualizer.ChartVisualizer in H.
  destruct (negb (truthy chart_data)); [discriminate |].
  destruct (get chart_data "data") as [chartData |]; [| discriminate].
  cbn in H. destruct (negb (truthy chartData)); [discriminate |].
  destruct (lengthIsZero chartData) as [[] |]; try discriminate. cbn in H.
  unfold ChartVisualizer.body in H.
  destruct (ChartVisualizer.dataKeysOf chartData); [| discriminate]. cbn in H.
  destruct (ChartVisualizer.renderChart _ chartData a); [| discriminate].
  cbn in H. injection H as <-. cbn.
  unfold jsxAnd. rewrite Htruthy. reflexivity.
Qed.

Lemma bubble_chart_heading_witness :
  exists paper : ChartVisualizer.Paper,
    chartBox (JObject [("data", JArray Examples.salesRows)]) = Ok (Some paper)
    /\ ChartVisualizer.heading paper = Element (JString "Data Visualization").
Proof.
  eexists. split; [reflexivity |].
  destruct (bubble_chart_heading (JObject [("data", JArray Examples.salesRows)]) _ eq_refl)
    as (title & Htitle & Hheading).
  injection Htitle as <-. exact Hheading.
Defined.

End ChartInBubble.

(** ** ChatInterface: the messages area *)

Section ChatViewFacts.
Import JS ChatView.

Lemma renderAll_ok (messages : list Message.t) (bubbles : list MessageBubble.View) :
  renderAll messages = Ok bubbles ->
  Forall2 (fun message bubble => MessageBubble.MessageBubble message false = Ok bubble)
    messages bubbles.
Proof.
  revert bubbles. induction messages as [| message rest IH]; intros bubbles H; cbn in H.
  - injection H as <-. constructor.
  - destruct (MessageBubble.MessageBubble message false) as [bubble |] eqn:Hb;
      [| discriminate].
    cbn in H. destruct (renderAll rest) as [others |]; [| discriminate].
    cbn in H. injection H as <-. constructor; [exact Hb | apply IH; reflexivity].
Qed.

Lemma renderAll_throws (messages : list Message.t) :
  renderAll messages = TypeError
  <-> exists message, message ∈ messages
                      /\ MessageBubble.MessageBubble message false = TypeError.
Proof.
  induction messages as [| message rest IH]; cbn.
  - split; [discriminate | intros (m & Hm & _); inversion Hm].
  - destruct (MessageBubble.MessageBubble message false) as [bubble |] eqn:Hb; cbn.
    + destruct (renderAll rest) as [others |]; cbn.
      * split; [discriminate |]. intros (m & Hm & Hthrow).
        apply elem_of_cons in Hm as [-> | Hm]; [congruence |].
        destruct IH as [_ IH].
        assert (Hbad : Ok others = TypeError) by (apply IH; eauto).
        discriminate Hbad.
      * split; [| reflexivity]. intros _.
        destruct IH as [IH _]. destruct (IH eq_refl) as (m & Hm & Hthrow).
        exists m. split; [now apply list_elem_of_further | exact Hthrow].
    + split; [| reflexivity]. intros _. exists message.
      split; [apply list_elem_of_here | exact Hb].
Qed.

(** X11. The messages area shows the welcome text exactly for an empty list;
    otherwise one bubble per message, in the order of the messages, each
    with the content of its message, and the "Thinking..." line exactly
    while loading. It fails to render exactly when one of its bubbles
    does. *)
Theorem thread_one_bubble_per_message (messages : list Message.t) (loading : bool) :
  (messagesArea messages loading = Ok Welcome <-> messages = [])
  /\ (forall bubbles thinking,
        messagesArea messages loading = Ok (Thread bubbles thinking) ->
        thinking = loading
        /\ length bubbles = length messages
        /\ forall (i : nat) (message : Message.t),
             messages !! i = Some message ->
             exists bubble : MessageBubble.View,
               bubbles !! i = Some bubble
               /\ MessageBubble.MessageBubble message false = Ok bubble
               /\ MessageBubble.content bubble = Message.content message)
  /\ (messagesArea messages loading = TypeError
      <-> exists message, message ∈ messages
                          /\ MessageBubble.MessageBubble message false = TypeError).
Proof.
  split; [| split].
  - destruct messages as [| m rest]; cbn; [tauto |].
    split; [| discriminate].
    destruct (MessageBubble.MessageBubble m false); cbn; [| discriminate].
    destruct (renderAll rest); cbn; discriminate.
  - intros bubbles thinking H.
    assert (Hall : renderAll messages = Ok bubbles /\ thinking = loading).
    { destruct messages as [| m rest]; [discriminate |].
      unfold messagesArea in H.
      destruct (renderAll (m :: rest)) as [bs |]; [| discriminate].
      cbn in H. injection H as <- <-. auto. }
    destruct Hall as (Hall & ->). apply renderAll_ok in Hall.
    split; [reflexivity |]. split; [symmetry; eapply Forall2_length; eassumption |].
    intros i message Hi.
    destruct (Forall2_lookup_l _ _ _ _ _ Hall Hi) as (bubble & Hb & Hrender).
    exists bubble. split; [exact Hb |]. split; [exact Hrender |].
    unfold MessageBubble.MessageBubble in Hrender.
    destruct (truthy (MessageBubble.hasChart message));
      [destruct (MessageBubble.chartBox (Message.chart_data message)); [| discriminate] |];
      cbn in Hrender; injection Hrender as <-; reflexivity.
  - rewrite <- renderAll_throws.
    destruct messages as [| m rest]; [cbn; split; discriminate |].
    unfold messagesArea. destruct (renderAll (m :: rest)); cbn; split; try discriminate;
      reflexivity.
Qed.

End ChatViewFacts.

(** ** ConversationSidebar: refining a search *)

Section SearchFacts.
Import JSString ConversationSidebar.

Lemma occursIn_trans (a b c : string) : occursIn a b -> occursIn b c -> occursIn a c.
Proof.
  intros (pre1 & post1 & ->) (pre2 & post2 & ->).
  exists (pre2 ++ pre1), (post1 ++ post2).
  now rewrite !append_assoc.
Qed.

Lemma filter_sublist_impl {A} (f g : A -> bool) (l : list A) :
  (forall x, f x = true -> g x = true) ->
  sublist (List.filter f l) (List.filter g l).
Proof.
  intros Himpl. induction l as [| x l IH]; cbn; [constructor |].
  destruct (f x) eqn:Hf.
  - rewrite (Himpl x Hf). now constructor.
  - destruct (g x); [now constructor | exact IH].
Qed.

Lemma filter_filter_same {A} (f : A -> bool) (l : list A) :
  List.filter f (List.filter f l) = List.filter f l.
Proof.
  induction l as [| x l IH]; cbn; [reflexivity |].
  destruct (f x) eqn:Hf; cbn; [rewrite Hf, IH; reflexivity | exact IH].
Qed.

(** X12. Refining a search narrows the list: when the lower-cased query
    [shorter] occurs in the lower-cased query [longer], the conversations
    found for [longer] are a sublist of those found for [shorter].
    Searching an already filtered list again for the same query changes
    nothing. Of [toLowerCase] the proof uses only that it is a function
    and sends the empty string to itself. *)
Theorem search_narrows (shorter longer : string) (conversations : list Conversation.t) :
  occursIn (toLowerCase shorter) (toLowerCase longer) ->
  sublist (filteredConversations longer conversations)
          (filteredConversations shorter conversations)
  /\ filteredConversations longer (filteredConversations longer conversations)
     = filteredConversations longer conversations.
Proof.
  intros Hoccurs. rewrite !filteredConversations_filter. split.
  - apply filter_sublist_impl. intros conv Hmatch.
    apply includes_spec. apply includes_spec in Hmatch.
    eapply occursIn_trans; [exact Hoccurs | exact Hmatch].
  - apply filter_filter_same.
Qed.

Lemma search_narrows_witness :
  let convs := [Servers.conversationNamed "c1" "Quarterly Sales";
                Servers.conversationNamed "c2" "Sales forecast";
                Servers.conversationNamed "c3" "Hiring"] in
  filteredConversations "ALES" convs
  = [Servers.conversationNamed "c1" "Quarterly Sales";
     Servers.conversationNamed "c2" "Sales forecast"]
  /\ filteredConversations "Sales F" convs
     = [Servers.conversationNamed "c2" "Sales forecast"]
  /\ sublist (filteredConversations "Sales F" convs) (filteredConversations "ALES" convs).
Proof.
  intros convs. split; [reflexivity |]. split; [reflexivity |].
  apply (search_narrows "ALES" "Sales F" convs).
  exists "s", " f". reflexivity.
Defined.

(** X13. What the list shows: the conversations found, when there are any;
    "No conversations yet" exactly when the query is empty and there is no
    conversation; "No results" exactly when the query is not empty and no
    title contains it, also when there is no conversation at all. *)
Theorem sidebar_notice (searchQuery : string) (conversations : list Conversation.t) :
  let found := filteredConversations searchQuery conversations in
  (listBody searchQuery found = EmptyNotice "No conversations yet"
   <-> searchQuery = "" /\ conversations = [])
  /\ (listBody searchQuery found = EmptyNotice "No results"
      <-> searchQuery <> ""
          /\ forall conv, conv ∈ conversations ->
                          ~ containsIgnoringCase (Conversation.title conv) searchQuery)
  /\ (found <> [] -> listBody searchQuery found = Items found).
Proof.
  intros found.
  assert (Hdef : found = filteredConversations searchQuery conversations) by reflexivity.
  clearbody found.
  assert (Hempty : found = []
                   <-> forall conv, conv ∈ conversations ->
                         ~ containsIgnoringCase (Conversation.title conv) searchQuery).
  { rewrite Hdef, filteredConversations_filter. split.
    - intros Hnil conv Hin Hmatch.
      assert (Hf : conv ∈ List.filter
                     (fun conv => includes (toLowerCase (Conversation.title conv))
                                           (toLowerCase searchQuery)) conversations).
      { rewrite list_elem_of_In, filter_In, <- list_elem_of_In, includes_spec. auto. }
      rewrite Hnil in Hf. inversion Hf.
    - intros Hnone.
      destruct (List.filter _ conversations) as [| conv rest] eqn:Hf; [reflexivity |].
      assert (Hin : conv ∈ conv :: rest) by apply list_elem_of_here.
      rewrite <- Hf in Hin.
      rewrite list_elem_of_In, filter_In, <- list_elem_of_In, includes_spec in Hin.
      destruct Hin as [Hin Hmatch]. exfalso. exact (Hnone conv Hin Hmatch). }
  split; [| split].
  - split.
    + intros H. destruct found as [| c rest]; [| discriminate].
      destruct searchQuery; [| discriminate]. split; [reflexivity |].
      cbn in Hdef. congruence.
    + intros [-> ->]. cbn in Hdef. rewrite Hdef. reflexivity.
  - split.
    + intros H. destruct found as [| c rest]; [| discriminate].
      destruct searchQuery as [| ch q]; [discriminate |].
      split; [discriminate |]. now apply Hempty.
    + intros [Hq Hnone]. apply Hempty in Hnone. rewrite Hnone.
      destruct searchQuery; [contradiction | reflexivity].
  - intros Hne. destruct found; [contradiction | reflexivity].
Qed.

End SearchFacts.

(** ** App: what the handlers leave behind *)

Section HandlerOutcomes.
Import Api App Browser Traces.

(** X15. An upload ends with the [uploading] flag cleared and without an
    exception, whatever the server answers, after exactly one upload
    request for the session. Accepted, it announces the file by name and
    schedules a reload of the documents; rejected, it shows the error's
    detail or "Upload failed", logs, and schedules nothing. The document
    list itself is not touched. *)
Theorem upload_outcomes (env : Env) (w : World) (st : State) (file : File) :
  let out := run env (handleFileUpload st file) w in
  out.1 = inr tt
  /\ uploading (state out.2) = false
  /\ requests out.2 = (requests w ++ [PostUpload file (sessionId st)])%list
  /\ documents (state out.2) = documents (state w)
  /\ match server env (length (requests w)) (PostUpload file (sessionId st)) with
     | inr _ =>
         snackbar (state out.2)
         = {| open := true; message := name file ++ " uploaded successfully!";
              severity := "success" |}
         /\ tasks out.2 = (tasks w ++ [TaskLoadDocuments])%list
         /\ console out.2 = console w
     | inl error =>
         snackbar (state out.2)
         = {| open := true; message := detailOr error "Upload failed";
              severity := "error" |}
         /\ tasks out.2 = tasks w
         /\ console out.2 = (console w ++ ["Upload failed:"])%list
     end.
Proof.
  unfold handleFileUpload. cbn.
  destruct (server env (length (requests w)) (PostUpload file (sessionId st)))
    as [error | doc]; cbn; auto 10.
Qed.

(** X16. A refresh that fails keeps what is on screen: [loadDocuments] and
    [loadConversations] replace their list by the server's answer, and on
    a rejection leave the whole state as it was, log one line and do not
    throw. *)
Theorem refresh_failure_keeps_list (env : Env) (w : World) (st : State) :
  let docs := run env (loadDocuments st) w in
  let convs := run env (loadConversations st) w in
  docs.1 = inr tt /\ convs.1 = inr tt
  /\ match server env (length (requests w)) (GetDocuments (sessionId st)) with
     | inr answer =>
         documents (state docs.2) = answer /\ console docs.2 = console w
     | inl _ =>
         state docs.2 = state w
         /\ console docs.2 = (console w ++ ["Failed to load documents:"])%list
     end
  /\ match server env (length (requests w)) (GetSessionConversations (sessionId st)) with
     | inr answer =>
         conversations (state convs.2) = answer /\ console convs.2 = console w
     | inl _ =>
         state convs.2 = state w
         /\ console convs.2 = (console w ++ ["Failed to load conversations:"])%list
     end.
Proof.
  unfold loadDocuments, loadConversations. cbn.
  destruct (server env (length (requests w)) (GetDocuments (sessionId st)));
    destruct (server env (length (requests w)) (GetSessionConversations (sessionId st)));
    cbn; auto 10.
Qed.

(** X17. The mount effect starts [init] once: the first run sets the
    [initialized] ref and starts it, every later run does nothing. *)
Theorem mount_effect_once (env : Env) (w : World) :
  let once := (run env mountEffect w).2 in
  let twice := (run env mountEffect once).2 in
  initialized once = true
  /\ tasks once = (tasks w ++ (if initialized w then [] else [TaskInit]))%list
  /\ twice = once
  /\ state once = state w.
Proof.
  unfold mountEffect. cbn. destruct (initialized w) eqn:Hinit; cbn.
  - rewrite Hinit. cbn. rewrite app_nil_r. auto.
  - auto.
Qed.



(** X19. A new conversation that the server creates becomes the open one, with
    an empty message list, then the conversation list is reloaded and
    "New conversation started" is shown. When the server refuses, the
    state stays as it was: the old conversation and its messages remain. *)
Theorem new_conversation_outcomes (env : Env) (w : World) (st : State) :
  let out := run env (handleNewConversation st) w in
  out.1 = inr tt
  /\ match server env (length (requests w)) (PostConversations (sessionId st)) with
     | inr conv =>
         conversationId (state out.2) = Some (Conversation.id conv)
         /\ messages (state out.2) = []
         /\ snackbar (state out.2)
            = {| open := true; message := "New conversation started";
                 severity := "info" |}
         /\ requests out.2
            = (requests w ++ [PostConversations (sessionId st);
                              GetSessionConversations (sessionId st)])%list
     | inl _ =>
         state out.2 = state w
         /\ requests out.2 = (requests w ++ [PostConversations (sessionId st)])%list
         /\ console out.2 = (console w ++ ["Failed to create conversation:"])%list
     end.
Proof.
  unfold handleNewConversation, loadConversations. cbn.
  destruct (server env (length (requests w)) (PostConversations (sessionId st)))
    as [error | conv]; cbn; [auto |].
  destruct (server env _ (GetSessionConversations (sessionId st))); cbn;
    rewrite <- ?app_assoc; auto 10.
Qed.

End HandlerOutcomes.

Section StartAndDelete.
Import Api App Browser Traces.

Lemma length_snoc {A} (l : list A) (x : A) : length (l ++ [x]) = S (length l).
Proof. rewrite length_app. cbn. lia. Qed.

(** X20. [init] always asks for the documents, then twice for the
    conversations, and neither of the first two answers matters for what
    follows. When the third answer lists conversations, the first of them
    is opened and its history, if it arrives, becomes the message list;
    when it lists none, a conversation is created and opened; when it
    fails, nothing is opened. No exception escapes. *)
Theorem init_outcomes (env : Env) (w : World) (st : State) :
  let sid := sessionId st in
  let n := length (requests w) in
  let out := run env (init st) w in
  let asked := [GetDocuments sid; GetSessionConversations sid;
                GetSessionConversations sid] in
  out.1 = inr tt
  /\ match server env (S (S n)) (GetSessionConversations sid) with
     | inr (lastConv :: _) =>
         conversationId (state out.2) = Some (Conversation.id lastConv)
         /\ requests out.2
            = (requests w ++ asked
                 ++ [GetConversationMessages (Conversation.id lastConv)])%list
         /\ match server env (S (S (S n)))
                  (GetConversationMessages (Conversation.id lastConv)) with
            | inr history => messages (state out.2) = history
            | inl _ => messages (state out.2) = messages (state w)
            end
     | inr [] =>
         messages (state out.2) = messages (state w)
         /\ requests out.2 = (requests w ++ asked ++ [PostConversations sid])%list
         /\ match server env (S (S (S n))) (PostConversations sid) with
            | inr conv => conversationId (state out.2) = Some (Conversation.id conv)
            | inl _ => conversationId (state out.2) = conversationId (state w)
            end
     | inl _ =>
         conversationId (state out.2) = conversationId (state w)
         /\ messages (state out.2) = messages (state w)
         /\ requests out.2 = (requests w ++ asked)%list
     end.
Proof.
  intros sid n out asked. subst out. unfold init, loadDocuments, loadConversations.
  cbn.
  destruct (server env (length (requests w)) (GetDocuments (sessionId st)))
    as [e1 | docs]; cbn;
    rewrite !length_snoc;
    destruct (server env (S (length (requests w))) (GetSessionConversations (sessionId st)))
      as [e2 | convs]; cbn;
    rewrite ?length_snoc; fold n; fold sid;
    destruct (server env (S (S n)) (GetSessionConversations sid))
      as [e3 | [| lastConv rest]]; cbn;
    rewrite ?length_snoc; fold n;
    try (destruct (server env (S (S (S n))) (PostConversations sid)); cbn);
    try (destruct (server env (S (S (S n)))
                     (GetConversationMessages (Conversation.id lastConv))); cbn);
    subst asked; rewrite <- ?app_assoc; cbn; auto 10.
Qed.

Lemma init_outcomes_witness :
  let convs := [Servers.conversationNamed "c7" "Budget"; Servers.conversationNamed "c3" "Hiring"] in
  let out := run (Servers.holding convs) (init Examples.chatting)
                 (Examples.freshWorld Examples.chatting ∅) in
  out.1 = inr tt /\ conversationId (state out.2) = Some "c7" /\ messages (state out.2) = [].
Proof.
  intros convs out.
  destruct (init_outcomes (Servers.holding convs) (Examples.freshWorld Examples.chatting ∅)
              Examples.chatting) as (Hret & Hopen & _ & Hmsgs).
  split; [exact Hret |]. split; [exact Hopen | exact Hmsgs].
Defined.

(** X21. Deleting a conversation. When the server refuses, nothing changes: no
    switch, no reload, no notice, one line on the console. When it
    accepts and the deleted conversation was not the open one, the list
    is reloaded, "Conversation deleted" is shown and the open
    conversation and its messages stay. When it was the open one and
    another conversation is listed, the first of the others (never the
    deleted one) becomes the open conversation, its messages are asked
    for before the list is reloaded and replace the ones shown (none, if
    they cannot be had), and "Conversation deleted" is shown. When no
    other is listed, a conversation is created right after the delete;
    created, it becomes the open one with no messages, and the list is
    asked for twice, once by either handler; refused, the open
    conversation and the messages stay. Nothing is left to run later. *)
Theorem delete_conversation_outcomes (env : Env) (w : World) (st : State)
    (convId : string) :
  let out := run env (handleDeleteConversation st convId) w in
  let sid := sessionId st in
  let n := length (requests w) in
  let others :=
    List.filter (fun c => negb (String.eqb (Conversation.id c) convId))
                (conversations st) in
  let deleted :=
    {| open := true; message := "Conversation deleted"; severity := "info" |} in
  out.1 = inr tt
  /\ tasks out.2 = tasks w
  /\ match server env n (DeleteConversation convId) with
     | inl _ =>
         state out.2 = state w
         /\ requests out.2 = (requests w ++ [DeleteConversation convId])%list
         /\ console out.2 = (console w ++ ["Failed to delete conversation:"])%list
     | inr _ =>
         if decide (Some convId = conversationId st) then
           match others with
           | c :: _ =>
               Conversation.id c <> convId
               /\ c ∈ conversations st
               /\ conversationId (state out.2) = Some (Conversation.id c)
               /\ requests out.2
                  = (requests w ++ [DeleteConversation convId;
                                    GetConversationMessages (Conversation.id c);
                                    GetSessionConversations sid])%list
               /\ messages (state out.2)
                  = match server env (S n) (GetConversationMessages (Conversation.id c)) with
                    | inr history => history
                    | inl _ => []
                    end
               /\ snackbar (state out.2) = deleted
           | [] =>
               match server env (S n) (PostConversations sid) with
               | inr conv =>
                   conversationId (state out.2) = Some (Conversation.id conv)
                   /\ messages (state out.2) = []
                   /\ requests out.2
                      = (requests w ++ [DeleteConversation convId;
                                        PostConversations sid;
                                        GetSessionConversations sid;
                                        GetSessionConversations sid])%list
               | inl _ =>
                   conversationId (state out.2) = conversationId (state w)
                   /\ messages (state out.2) = messages (state w)
                   /\ requests out.2
                      = (requests w ++ [DeleteConversation convId;
                                        PostConversations sid;
                                        GetSessionConversations sid])%list
               end
           end
         else
           conversationId (state out.2) = conversationId (state w)
           /\ messages (state out.2) = messages (state w)
           /\ requests out.2
              = (requests w ++ [DeleteConversation convId;
                                GetSessionConversations sid])%list
           /\ snackbar (state out.2) = deleted
     end.
Proof.
  intros out sid n others deleted.
  assert (Hothers : forall c rest, others = c :: rest ->
            Conversation.id c <> convId /\ c ∈ conversations st).
  { intros c rest Heq.
    assert (Hin : c ∈ others) by (rewrite Heq; apply list_elem_of_here).
    subst others. rewrite list_elem_of_In, filter_In, <- list_elem_of_In in Hin.
    destruct Hin as [Hin Hne]. apply negb_true_iff, String.eqb_neq in Hne. auto. }
  subst out sid n deleted.
  unfold handleDeleteConversation, start, handleSelectConversation,
    handleNewConversation, loadConversations.
  fold others. cbn.
  destruct (server env (length (requests w)) (DeleteConversation convId));
    cbn; [auto |].
  destruct (decide (Some convId = conversationId st)) as [Hopen | Hother].
  - destruct others as [| c rest] eqn:Heq.
    + cbn. rewrite length_app, Nat.add_1_r.
      destruct (server env (S (length (requests w))) (PostConversations (sessionId st)));
        cbn;
        repeat match goal with
               | |- context [server env ?k (GetSessionConversations ?s)] =>
                   destruct (server env k (GetSessionConversations s)); cbn
               end;
        rewrite <- ?app_assoc; auto 10.
    + destruct (Hothers c rest eq_refl) as [Hne Hin].
      destruct (decide (Some (Conversation.id c) = conversationId st)) as [Hsame | _];
        [congruence |].
      cbn. rewrite length_app, Nat.add_1_r.
      destruct (server env (S (length (requests w)))
                  (GetConversationMessages (Conversation.id c)));
        cbn;
        repeat match goal with
               | |- context [server env ?k (GetSessionConversations ?s)] =>
                   destruct (server env k (GetSessionConversations s)); cbn
               end;
        rewrite <- ?app_assoc; auto 10.
  - cbn.
    repeat match goal with
           | |- context [server env ?k (GetSessionConversations ?s)] =>
               destruct (server env k (GetSessionConversations s)); cbn
           end;
      rewrite <- ?app_assoc; auto 10.
Qed.

Lemma delete_conversation_outcomes_witness :
  let st :=
    {| sessionId := "s1"; conversationId := Some "c7";
       messages := [Examples.loadedUserMessage];
       documents := [];
       conversations := [Servers.conversationNamed "c7" "Budget";
                         Servers.conversationNamed "c3" "Hiring"];
       uploading := false; loading := false; sidebarOpen := true;
       snackbar := {| open := false; message := ""; severity := "info" |} |} in
  let out := run Examples.answering (handleDeleteConversation st "c7")
                 (Examples.freshWorld st ∅) in
  conversationId (state out.2) = Some "c3"
  /\ messages (state out.2) = []
  /\ requests out.2 = [DeleteConversation "c7"; GetConversationMessages "c3";
                       GetSessionConversations "s1"].
Proof.
  intros st out.
  destruct (delete_conversation_outcomes Examples.answering
              (Examples.freshWorld st ∅) st "c7") as (_ & _ & Hout).
  cbn in Hout. destruct Hout as (_ & _ & Hconv & Hreq & Hmsgs & _).
  split; [exact Hconv |]. split; [exact Hmsgs | exact Hreq].
Defined.

End StartAndDelete.

(** ** App: safety of the handlers *)

Section HandlerSafety.
Import Api App Browser Traces.

Lemma run_neverThrows (env : Env) {A} (p : Prog A) (w : World) :
  neverThrows p -> exists a : A, (run env p w).1 = inr a.
Proof.
  revert w. induction p as [a | e | X e k IH]; intros w Hp; cbn in *.
  - eauto.
  - contradiction.
  - apply IH, Hp.
Qed.

Lemma run_frame (env : Env) {A X} (field : State -> X) (P : Update -> Prop)
    (p : Prog A) (w : World) :
  (forall u st, P u -> field (applyUpdate u st) = field st) ->
  allUpdates P p ->
  field (state (run env p w).2) = field (state w).
Proof.
  intros Hframe. revert w.
  induction p as [a | e | Y e k IH]; intros w Hp; cbn in *; [reflexivity ..|].
  destruct Hp as [He Hk]. rewrite IH by apply Hk.
  destruct e; cbn; try reflexivity. apply Hframe, He.
Qed.

(** Walks a handler and shows that no branch ends in a throw. *)
Ltac walk_safely :=
  repeat (cbn;
          match goal with
          | |- True => exact I
          | |- forall _, _ => intro
          | |- context [match ?x with inl _ => _ | inr _ => _ end] => destruct x
          | |- context [match ?x with [] => _ | _ :: _ => _ end] => destruct x
          | |- context [if ?b then _ else _] => destruct b
          end).

(** X22. No handler of [App] lets a rejected request escape: whatever the
    server answers, each of them returns normally. The functions of
    [services/api.ts] they call do throw on a rejection. *)
Theorem handlers_never_throw (env : Env) (w : World) (st : State) :
  (forall file, (run env (handleFileUpload st file) w).1 = inr tt)
  /\ (forall messageText, (run env (handleSendMessage st messageText) w).1 = inr tt)
  /\ (forall convId, (run env (handleSelectConversation st convId) w).1 = inr tt)
  /\ (run env (handleNewConversation st) w).1 = inr tt
  /\ (forall convId, (run env (handleDeleteConversation st convId) w).1 = inr tt)
  /\ (forall id, (run env (handleDocumentDeleted st id) w).1 = inr tt)
  /\ (run env (toggleSidebar st) w).1 = inr tt
  /\ (run env mountEffect w).1 = inr tt
  /\ (forall t, (run env (taskProg st t) w).1 = inr tt)
  /\ (forall message conversationId error,
        server env (length (requests w))
               (PostChat message conversationId (sessionId st)) = inl error ->
        (run env (sendMessage message conversationId (sessionId st)) w).1 = inl error).
Proof.
  assert (Hsafe : forall p : Prog unit, neverThrows p -> (run env p w).1 = inr tt).
  { intros p Hp. destruct (run_neverThrows env p w Hp) as [[] Ha]. exact Ha. }
  assert (Hselect : forall convId, neverThrows (handleSelectConversation st convId))
    by (intros convId; unfold handleSelectConversation; walk_safely).
  assert (Hnew : neverThrows (handleNewConversation st))
    by (unfold handleNewConversation, loadConversations; walk_safely).
  repeat match goal with |- _ /\ _ => split end.
  - intros file. apply Hsafe. unfold handleFileUpload. walk_safely.
  - intros messageText. apply Hsafe.
    unfold handleSendMessage, start, loadConversations.
    destruct (conversationId st); walk_safely.
  - intros convId. apply Hsafe, Hselect.
  - apply Hsafe, Hnew.
  - intros convId. apply Hsafe.
    unfold handleDeleteConversation, start, handleSelectConversation,
      handleNewConversation, loadConversations.
    walk_safely.
  - intros id. apply Hsafe. unfold handleDocumentDeleted. walk_safely.
  - apply Hsafe. unfold toggleSidebar. walk_safely.
  - apply Hsafe. unfold mountEffect. walk_safely.
  - intros [| | | convId |]; apply Hsafe; cbn [taskProg]; auto.
    + unfold init, loadDocuments, loadConversations. walk_safely.
    + unfold loadDocuments. walk_safely.
    + unfold loadConversations. walk_safely.
  - intros message conversationId error Herr. cbn. rewrite Herr. reflexivity.
Qed.

Lemma handlers_never_throw_witness :
  (run (Examples.rejecting Examples.networkError)
       (sendMessage "Any news?" "conv-1" (sessionId Examples.chatting))
       (Examples.freshWorld Examples.chatting ∅)).1 = inl Examples.networkError
  /\ (run (Examples.rejecting Examples.networkError)
          (handleSendMessage Examples.chatting "Any news?")
          (Examples.freshWorld Examples.chatting ∅)).1 = inr tt.
Proof.
  destruct (handlers_never_throw (Examples.rejecting Examples.networkError)
              (Examples.freshWorld Examples.chatting ∅) Examples.chatting)
    as (_ & Hsend & _ & _ & _ & _ & _ & _ & _ & Hapi).
  split; [apply Hapi; reflexivity | apply Hsend].
Defined.

(** X23. Sending a message, answered or rejected, calls no setter but those of
    the messages, the loading flag, the snackbar and, by the reload it
    starts after an answer, the conversation list: the open conversation,
    the documents, the upload flag, the sidebar and the store are as they
    were. The conversation list changes only when the chat request was
    answered and the reload after it was answered too, to the list the
    reload got. *)
Theorem send_leaves_the_rest (env : Env) (w : World) (st : State)
    (messageText : string) :
  let out := run env (handleSendMessage st messageText) w in
  let n := length (requests w) in
  allUpdates sendUpdate (handleSendMessage st messageText)
  /\ conversationId (state out.2) = conversationId (state w)
  /\ documents (state out.2) = documents (state w)
  /\ uploading (state out.2) = uploading (state w)
  /\ sidebarOpen (state out.2) = sidebarOpen (state w)
  /\ localStorage out.2 = localStorage w
  /\ conversations (state out.2)
     = match conversationId st with
       | Some cid =>
           if JSString.nonEmpty cid then
             match server env n (PostChat messageText cid (sessionId st)),
                   server env (S n) (GetSessionConversations (sessionId st)) with
             | inr _, inr convs => convs
             | _, _ => conversations (state w)
             end
           else conversations (state w)
       | None => conversations (state w)
       end.
Proof.
  intros out n.
  assert (Hall : allUpdates sendUpdate (handleSendMessage st messageText)).
  { unfold handleSendMessage, start, loadConversations.
    destruct (conversationId st); walk_handler. }
  split; [exact Hall |]. subst out n.
  split; [| split; [| split; [| split; [| split]]]];
    try (apply (run_frame env _ sendUpdate); [| exact Hall];
         intros [] s Hu; try contradiction; reflexivity).
  - unfold handleSendMessage, start, loadConversations.
    destruct (conversationId st) as [cid |]; [| reflexivity].
    destruct (JSString.nonEmpty cid); cbn; [| reflexivity].
    destruct (server env (length (requests w)) (PostChat messageText cid (sessionId st)));
      cbn; [reflexivity |].
    destruct (server env _ (GetSessionConversations (sessionId st))); reflexivity.
  - unfold handleSendMessage, start, loadConversations.
    destruct (conversationId st) as [cid |]; [| reflexivity].
    destruct (JSString.nonEmpty cid); cbn; [| reflexivity].
    destruct (server env (length (requests w)) (PostChat messageText cid (sessionId st)));
      cbn; [reflexivity |].
    rewrite length_app, Nat.add_1_r.
    destruct (server env (S (length (requests w)))
                (GetSessionConversations (sessionId st))); reflexivity.
Qed.


End HandlerSafety.

(** ** App: the colour mode *)

Section ThemeFacts.
Import Api App Browser Theme.

(** X24. The colour mode survives a reload: toggling stores the new mode, which
    is ["dark"] after ["light"] and ["light"] after anything else, and
    [getInitialTheme] then reads it back. With nothing stored, or the
    empty string, the mode is ["dark"]. Toggling twice from ["dark"] or
    ["light"] gives the mode back, and toggling leaves the stored session
    identifier alone. *)
Theorem theme_round_trip (env : Env) (w : World) (prevMode : string) :
  let newMode := if String.eqb prevMode "light" then "dark" else "light" in
  let toggled := run env (toggleColorMode prevMode) w in
  toggled.1 = inr newMode
  /\ newMode <> prevMode
  /\ (run env getInitialTheme toggled.2).1 = inr newMode
  /\ (prevMode = "dark" \/ prevMode = "light" ->
      (run env (toggleColorMode newMode) toggled.2).1 = inr prevMode)
  /\ (localStorage w !! "rag_theme_mode" = None
      \/ localStorage w !! "rag_theme_mode" = Some "" ->
      (run env getInitialTheme w).1 = inr "dark")
  /\ localStorage toggled.2 !! "rag_session_id" = localStorage w !! "rag_session_id"
  /\ (run env getSessionId toggled.2).1 = (run env getSessionId w).1
  /\ state toggled.2 = state w.
Proof.
  intros newMode toggled. subst toggled. unfold toggleColorMode. fold newMode. cbn.
  assert (Hmode : newMode = "dark" \/ newMode = "light")
    by (subst newMode; destruct (String.eqb prevMode "light"); auto).
  assert (Hkeep : <["rag_theme_mode" := newMode]> (localStorage w) !! "rag_session_id"
                  = localStorage w !! "rag_session_id")
    by (apply lookup_insert_ne; discriminate).
  split; [reflexivity |].
  split.
  { subst newMode. destruct (String.eqb_spec prevMode "light") as [Heq | Hne];
      [rewrite Heq; discriminate | congruence]. }
  split.
  { unfold getInitialTheme. cbn. rewrite lookup_insert_eq.
    destruct Hmode as [-> | ->]; reflexivity. }
  split.
  { intros [-> | ->]; reflexivity. }
  split.
  { intros [H | H]; unfold getInitialTheme; cbn; rewrite H; reflexivity. }
  split; [exact Hkeep |].
  split; [| reflexivity].
  unfold getSessionId. cbn. rewrite Hkeep.
  destruct (localStorage w !! "rag_session_id") as [[| c s] |]; reflexivity.
Qed.

Lemma theme_round_trip_witness :
  let w := Examples.freshWorld Examples.chatting ∅ in
  (run Examples.answering getInitialTheme w).1 = inr "dark"
  /\ (run Examples.answering (toggleColorMode "light")
          (run Examples.answering (toggleColorMode "dark") w).2).1 = inr "dark".
Proof.
  intros w.
  destruct (theme_round_trip Examples.answering w "dark")
    as (_ & _ & _ & Htwice & Hdefault & _).
  split; [apply Hdefault; left; reflexivity | apply Htwice; left; reflexivity].
Defined.

End ThemeFacts.

(** ** FileUpload and DocumentList: through to the server *)

Section UploadAndDelete.
Import Api App Browser.

(** X25. Dropping files uploads the first accepted file and no other: one
    upload request, for that file and the session of [App]; an empty drop
    does nothing at all. *)
Theorem drop_uploads_first_only (env : Env) (w : World) (st : State)
    (acceptedFiles : list File) :
  let out := run env (FileUpload.onDrop (handleFileUpload st) acceptedFiles) w in
  out.1 = inr tt
  /\ match acceptedFiles with
     | [] => out.2 = w
     | file :: _ =>
         out = run env (handleFileUpload st file) w
         /\ requests out.2 = (requests w ++ [PostUpload file (sessionId st)])%list
     end.
Proof.
  destruct acceptedFiles as [| file rest]; cbn; [auto |].
  unfold handleFileUpload. cbn.
  destruct (server env (length (requests w)) (PostUpload file (sessionId st))); cbn; auto.
Qed.



End UploadAndDelete.

(** ** From the chat input to the message list *)

Section InputToList.
Import Api App Browser JSString.

Lemma trimStart_fixed (s : string) :
  startsWithWhiteSpace s = false -> trimStart s = s.
Proof. destruct s as [| c s]; cbn; [reflexivity |]. now intros ->. Qed.

Lemma trimEnd_cons (c : ascii) (s : string) :
  trimEnd (String c s)
  = match trimEnd s with
    | EmptyString => if isWhiteSpace c then EmptyString else String c EmptyString
    | String a t => String c (String a t)
    end.
Proof. reflexivity. Qed.

Lemma trimEnd_fixed (s : string) :
  endsWithWhiteSpace s = false -> trimEnd s = s.
Proof.
  induction s as [| c s IH]; [reflexivity |]. intros H.
  destruct s as [| d s].
  - cbn in *. now rewrite H.
  - assert (H' : endsWithWhiteSpace (String d s) = false) by exact H.
    rewrite trimEnd_cons, (IH H'). reflexivity.
Qed.

(** X27. What the chat input hands over is clean: every message given to
    [onSendMessage] is not empty, neither starts nor ends with white
    space, and trimming it again gives the same text. *)
Theorem sent_message_clean (input : string) (loading : bool) (messageText : string) :
  messageText ∈ ChatInterface.sent (ChatInterface.handleSend input loading) ->
  messageText = trim input
  /\ messageText <> ""
  /\ startsWithWhiteSpace messageText = false
  /\ endsWithWhiteSpace messageText = false
  /\ trim messageText = messageText
  /\ loading = false.
Proof.
  unfold ChatInterface.handleSend.
  destruct (nonEmpty (trim input)) eqn:Hne; cbn; [| intros H; inversion H].
  destruct loading; cbn; [intros H; inversion H |].
  intros H. apply elem_of_cons in H as [-> | H]; [| inversion H].
  destruct (trim_spec input) as (l & r & _ & _ & _ & Hstart & Hend).
  split; [reflexivity |]. split; [now apply nonEmpty_true |].
  split; [exact Hstart |]. split; [exact Hend |]. split; [| reflexivity].
  unfold trim at 1. rewrite (trimStart_fixed _ Hstart). apply trimEnd_fixed, Hend.
Qed.

Lemma sent_message_clean_witness :
  "What changed?" = trim "  What changed?  " /\ trim "What changed?" = "What changed?".
Proof.
  destruct (sent_message_clean "  What changed?  " false "What changed?"
              ltac:(apply list_elem_of_here)) as (Htrim & _ & _ & _ & Hfixed & _).
  split; [exact Htrim | exact Hfixed].
Defined.

(** X28. From the input field to the server: a blank input, or an input while
    the render is loading, sets off nothing at all; any other input sets
    off exactly the send of its trimmed text. With a conversation open
    (an identifier that is not the empty string), the first request made
    is the chat request with the trimmed text, no other chat request
    follows, and the user message added to the list has the trimmed text
    as content. Without one, no request is made and no message added. *)
Theorem input_to_request (env : Env) (w : World) (st : State) (input : string) :
  let out := run env (Wiring.sendFromInput st input) w in
  if allWhiteSpace input || loading st
  then out = (inr tt, w)
  else out = run env (handleSendMessage st (trim input)) w
       /\ (forall cid : string,
             conversationId st = Some cid -> cid <> "" ->
             (exists later : list Request,
                requests out.2
                = (requests w ++ PostChat (trim input) cid (sessionId st) :: later)%list
                /\ (later = [] \/ later = [GetSessionConversations (sessionId st)]))
             /\ exists (userId time : string) (reply : Message.t),
                  messages (state out.2)
                  = (messages (state w)
                     ++ [ {| Message.id := userId; Message.role := "user";
                             Message.content := trim input;
                             Message.created_at := time;
                             Message.sources := None; Message.confidence := None;
                             Message.chart_id := None;
                             Message.chart_data := JS.JUndefined |};
                          reply ])%list)
       /\ (conversationId st = None \/ conversationId st = Some "" ->
           requests out.2 = requests w
           /\ messages (state out.2) = messages (state w)).
Proof.
  unfold Wiring.sendFromInput, ChatInterface.handleSend.
  rewrite nonEmpty_trim.
  destruct (allWhiteSpace input); cbn [negb andb orb]; [reflexivity |].
  destruct (loading st); cbn [negb andb orb]; [reflexivity |].
  cbn [foldr].
  assert (Hrun : run env (handleSendMessage st (trim input);; Ret tt) w
                 = run env (handleSendMessage st (trim input)) w).
  { unfold mbind, Prog_bind. rewrite run_bind.
    destruct (run env (handleSendMessage st (trim input)) w) as [[e | []] w'];
      reflexivity. }
  rewrite Hrun. split; [reflexivity |]. split.
  - intros cid Hcid Hopen.
    unfold handleSendMessage, start, loadConversations. rewrite Hcid.
    destruct cid as [| c cid]; [contradiction |]. cbn.
    destruct (server env (length (requests w))
                (PostChat (trim input) (String c cid) (sessionId st))); cbn.
    + split; [exists []; auto |]. rewrite <- app_assoc; cbn; eauto.
    + destruct (server env _ (GetSessionConversations (sessionId st))); cbn;
        (split; [eexists; rewrite <- app_assoc; cbn; split; [reflexivity | auto] |]);
        rewrite <- app_assoc; cbn; eauto.
  - intros [Hcid | Hcid]; unfold handleSendMessage; rewrite Hcid; cbn; auto.
Qed.

(** X29. After [getSessionId] the identifier it returned is the one the store
    holds under the key, whether it was found or generated: the next page
    load finds what this one used. *)
Theorem session_id_persisted (env : Env) (w : World) :
  exists id : string,
    (run env getSessionId w).1 = inr id
    /\ localStorage (run env getSessionId w).2 !! "rag_session_id" = Some id
    /\ forall key : string,
         key <> "rag_session_id" ->
         localStorage (run env getSessionId w).2 !! key = localStorage w !! key.
Proof.
  unfold getSessionId. cbn.
  destruct (localStorage w !! "rag_session_id") as [[| c s] |] eqn:Hs; cbn.
  - eexists. split; [reflexivity |]. split; [apply lookup_insert_eq |].
    intros key Hkey. now apply lookup_insert_ne.
  - eexists. split; [reflexivity |]. auto.
  - eexists. split; [reflexivity |]. split; [apply lookup_insert_eq |].
    intros key Hkey. now apply lookup_insert_ne.
Qed.

End InputToList.
